(** * The profiles page of xtream-player (src/app/profiles/page.tsx)

    A shallow embedding of the React component [Profiles]: its state
    variables, its four asynchronous handlers ([fetchProfiles],
    [handleCreateProfile], [handleSetActiveProfile], [deleteProfile]) and the
    element tree it returns.  Handlers are resumptions: a tree of synchronous
    effects and of [await] points whose continuation receives the settled
    result, so that [try]/[catch]/[finally] and early [return] are written out
    as in the source.  Running a handler against the replies of the outside
    world yields the final world and the trace of everything it did.  The
    mount effect takes the settled session lookup as its argument. *)

From Stdlib Require Import ZArith Ascii.
From stdpp Require Import base option list strings gmap pretty.

Local Open Scope Z_scope.

#[local] Set Warnings "-register-all".

(** ** JavaScript values

    Everything that comes back from [response.json()] is untyped at run time
    ([any]); TypeScript's annotations are erased.  Numbers are the integers
    (identifiers, flags), taken in the range where a JavaScript number is
    exact and prints as its decimal digits; objects keep their properties in
    order. *)

Inductive json : Type :=
| JUndef
| JNull
| JBool (b : bool)
| JNum (n : Z)
| JStr (s : string)
| JArr (items : list json)
| JObj (fields : list (string * json)).

(** A settled promise, and also the result of an expression that may throw. *)
Inductive outcome (A : Type) : Type :=
| Resolved (a : A)
| Rejected (reason : string).
Arguments Resolved {A} a.
Arguments Rejected {A} reason.

Definition TypeError : string := "TypeError".
Definition SyntaxError : string := "SyntaxError".

(** [ToBoolean]. *)
Definition truthy (v : json) : bool :=
  match v with
  | JUndef | JNull => false
  | JBool b => b
  | JNum n => negb (n =? 0)
  | JStr s => negb (String.eqb s EmptyString)
  | JArr _ | JObj _ => true
  end.

(** [a || b]. *)
Definition js_or (a b : json) : json := if truthy a then a else b.

Fixpoint assoc (k : string) (kv : list (string * json)) : json :=
  match kv with
  | [] => JUndef
  | (k', v) :: rest => if String.eqb k k' then v else assoc k rest
  end.

(** [v.k] for a property name [k]: throws on [null] and [undefined]; an own
    property of an object; [length] of arrays and strings; [undefined]
    otherwise (no property read in the page is inherited from a prototype). *)
Definition get_prop (k : string) (v : json) : outcome json :=
  match v with
  | JUndef | JNull => Rejected TypeError
  | JObj kv => Resolved (assoc k kv)
  | JArr l => Resolved (if String.eqb k "length" then JNum (Z.of_nat (length l)) else JUndef)
  | JStr s => Resolved (if String.eqb k "length" then JNum (Z.of_nat (String.length s)) else JUndef)
  | JBool _ | JNum _ => Resolved JUndef
  end.

(** [v === n] for a number [n]. *)
Definition strict_eq_num (v : json) (n : Z) : bool :=
  match v with
  | JNum m => m =? n
  | _ => false
  end.

(** *** [JSON.stringify] *)

Definition dquote : string := String (ascii_of_nat 34) EmptyString.
Definition backslash : string := String (ascii_of_nat 92) EmptyString.

Definition hex_digit (n : nat) : ascii :=
  if (n <? 10)%nat then ascii_of_nat (48 + n) else ascii_of_nat (87 + n).

Definition escape_char (c : ascii) : string :=
  let n := nat_of_ascii c in
  if (n =? 34)%nat then backslash +:+ dquote
  else if (n =? 92)%nat then backslash +:+ backslash
  else if (n =? 8)%nat then backslash +:+ "b"
  else if (n =? 9)%nat then backslash +:+ "t"
  else if (n =? 10)%nat then backslash +:+ "n"
  else if (n =? 12)%nat then backslash +:+ "f"
  else if (n =? 13)%nat then backslash +:+ "r"
  else if (n <? 32)%nat then
    backslash +:+ "u00" +:+ String (hex_digit (n / 16)) (String (hex_digit (n mod 16)) EmptyString)
  else String c EmptyString.

Fixpoint escape (s : string) : string :=
  match s with
  | EmptyString => EmptyString
  | String c rest => escape_char c +:+ escape rest
  end.

Definition quote (s : string) : string := dquote +:+ escape s +:+ dquote.

Fixpoint join (sep : string) (l : list string) : string :=
  match l with
  | [] => EmptyString
  | [x] => x
  | x :: rest => x +:+ sep +:+ join sep rest
  end.

(** [None] is [undefined]: what [JSON.stringify(undefined)] returns.  An
    [undefined] array element prints as [null]; an [undefined] property is
    left out. *)
Fixpoint JSON_stringify (v : json) : option string :=
  match v with
  | JUndef => None
  | JNull => Some "null"
  | JBool b => Some (if b then "true" else "false")
  | JNum n => Some (pretty n)
  | JStr s => Some (quote s)
  | JArr l =>
      Some ("[" +:+ join "," (map (fun x => default "null" (JSON_stringify x)) l) +:+ "]")
  | JObj kv =>
      Some ("{" +:+ join ","
              (concat (map (fun p => match JSON_stringify (snd p) with
                                 | Some s => [quote (fst p) +:+ ":" +:+ s]
                                 | None => []
                                 end) kv)) +:+ "}")
  end.

(** [String(x)] of the result of [JSON.stringify], as [localStorage.setItem]
    and template literals convert it. *)
Definition to_text (o : option string) : string := default "undefined" o.

(** ** Component state

    The eight [useState] cells of [Profiles], under the names of the source.
    [profiles], [activeProfileId], [user] and [error] receive values that come
    from the network and are held as such; [formData] is the object of staged
    form fields. *)

Record State : Type := mkState {
  profiles : json;
  loading : bool;
  activeProfileId : json;
  isDialogOpen : bool;
  user : json;
  formData : list (string * json);
  error : json;
  isLoading : bool
}.

Definition emptyForm : list (string * json) :=
  [("name", JStr EmptyString); ("iptvUrl", JStr EmptyString);
   ("iptvUsername", JStr EmptyString); ("iptvPassword", JStr EmptyString)].

Definition initialState : State :=
  {| profiles := JArr []; loading := true; activeProfileId := JNull;
     isDialogOpen := false; user := JNull; formData := emptyForm;
     error := JNull; isLoading := false |}.

(** A call of one of the state setters. *)
Inductive update : Type :=
| SetProfiles (v : json)
| SetLoading (b : bool)
| SetActiveProfileId (v : json)
| SetIsDialogOpen (b : bool)
| SetUser (v : json)
| SetFormData (f : list (string * json))
| SetError (v : json)
| SetIsLoading (b : bool).

Definition apply_update (u : update) (s : State) : State :=
  match u with
  | SetProfiles v =>
      mkState v (loading s) (activeProfileId s) (isDialogOpen s) (user s) (formData s) (error s) (isLoading s)
  | SetLoading b =>
      mkState (profiles s) b (activeProfileId s) (isDialogOpen s) (user s) (formData s) (error s) (isLoading s)
  | SetActiveProfileId v =>
      mkState (profiles s) (loading s) v (isDialogOpen s) (user s) (formData s) (error s) (isLoading s)
  | SetIsDialogOpen b =>
      mkState (profiles s) (loading s) (activeProfileId s) b (user s) (formData s) (error s) (isLoading s)
  | SetUser v =>
      mkState (profiles s) (loading s) (activeProfileId s) (isDialogOpen s) v (formData s) (error s) (isLoading s)
  | SetFormData f =>
      mkState (profiles s) (loading s) (activeProfileId s) (isDialogOpen s) (user s) f (error s) (isLoading s)
  | SetError v =>
      mkState (profiles s) (loading s) (activeProfileId s) (isDialogOpen s) (user s) (formData s) v (isLoading s)
  | SetIsLoading b =>
      mkState (profiles s) (loading s) (activeProfileId s) (isDialogOpen s) (user s) (formData s) (error s) b
  end.

(** ** The outside world: HTTP, browser storage, notifications *)

Record request : Type := mkRequest {
  method : string;
  url : string;
  headers : list (string * string);
  body : option string
}.

(** A response: its status and its body as [response.json()] parses it
    ([None]: the body is not JSON and [json()] rejects). *)
Record response : Type := mkResponse {
  status : Z;
  payload : option json
}.

(** [response.ok]. *)
Definition ok (r : response) : bool := (200 <=? status r) && (status r <=? 299).

(** [await response.json()]. *)
Definition json_of (r : response) : outcome json :=
  match payload r with
  | Some v => Resolved v
  | None => Rejected SyntaxError
  end.

(** Synchronous effects of a handler. *)
Inductive effect : Type :=
| PreventDefault
| SetState (u : update)
| ToastError (msg : json)
| ToastSuccess (msg : string)
| ConsoleError (label reason : string)
| RouterPush (path : string)
| RouterRefresh
| SetClientSession (token : json)
| StorageSetItem (key value : string).

(** What an execution leaves behind, in order. *)
Inductive event : Type :=
| Did (e : effect)
| Fetched (r : request) (reply : outcome response)
| Verified (iptvUrl iptvUsername iptvPassword : json) (reply : outcome bool).

Record World : Type := mkWorld {
  state : State;
  localStorage : gmap string string
}.

Definition perform (e : effect) (w : World) : World :=
  match e with
  | SetState u => mkWorld (apply_update u (state w)) (localStorage w)
  | StorageSetItem k v => mkWorld (state w) (<[k := v]> (localStorage w))
  | _ => w
  end.

(** ** Handlers as resumptions *)

Inductive prog : Type :=
| Ret
| Do (e : effect) (k : prog)
| GetItem (key : string) (k : option string -> prog)
| AwaitFetch (r : request) (k : outcome response -> prog)
| AwaitVerify (iptvUrl iptvUsername iptvPassword : json) (k : outcome bool -> prog).

(** The replies of the network and of [verifyIPTVCredentials]; the index is
    the number of external calls the execution has already made. *)
Record Outside : Type := mkOutside {
  fetch : nat -> request -> outcome response;
  verifyIPTVCredentials : nat -> json -> json -> json -> outcome bool
}.

Definition emit (ev : event) (r : World * list event) : World * list event :=
  (r.1, ev :: r.2).

Fixpoint run (o : Outside) (p : prog) (n : nat) (w : World) : World * list event :=
  match p with
  | Ret => (w, [])
  | Do e k => emit (Did e) (run o k n (perform e w))
  | GetItem key k => run o (k (localStorage w !! key)) n w
  | AwaitFetch r k =>
      let reply := fetch o n r in
      emit (Fetched r reply) (run o (k reply) (S n) w)
  | AwaitVerify u a p k =>
      let reply := verifyIPTVCredentials o n u a p in
      emit (Verified u a p reply) (run o (k reply) (S n) w)
  end.

(** What a handler is waiting for once its synchronous prefix has run. *)
Inductive waiting : Type :=
| Finished
| OnFetch (r : request)
| OnVerify (iptvUrl iptvUsername iptvPassword : json).

Fixpoint suspend (p : prog) (w : World) : World * waiting :=
  match p with
  | Ret => (w, Finished)
  | Do e k => suspend k (perform e w)
  | GetItem key k => suspend (k (localStorage w !! key)) w
  | AwaitFetch r _ => (w, OnFetch r)
  | AwaitVerify u a p _ => (w, OnVerify u a p)
  end.

(** The four requests of the page ([GET] is the default method of [fetch]). *)
Definition listRequest (token : option string) : request :=
  {| method := "GET"; url := "/api/profiles";
     headers := [("Authorization", "Bearer " +:+ default "null" token)];
     body := None |}.

Definition createRequest (form : list (string * json)) : request :=
  {| method := "POST"; url := "/api/profiles";
     headers := [("Content-Type", "application/json")];
     body := JSON_stringify (JObj form) |}.

Definition setActiveRequest (profileId : Z) : request :=
  {| method := "POST"; url := "/api/profiles/setActive";
     headers := [("Content-Type", "application/json")];
     body := JSON_stringify (JObj [("profileId", JNum profileId)]) |}.

Definition deleteRequest (profileId : Z) : request :=
  {| method := "DELETE"; url := "/api/profiles/" +:+ pretty profileId;
     headers := []; body := None |}.

(** *** [fetchProfiles]; [k] is what the caller does after [await
    fetchProfiles()] (the function catches everything it throws). *)
Definition fetchProfiles (k : prog) : prog :=
  let finally_ := Do (SetState (SetLoading false)) k in
  let catch_ e := Do (ConsoleError "Error fetching profiles:" e) finally_ in
  GetItem "token" (fun token =>
  AwaitFetch (listRequest token)
    (fun reply =>
       match reply with
       | Rejected e => catch_ e
       | Resolved response =>
           if status response =? 401 then Do (RouterPush "/login") finally_
           else
             match json_of response with
             | Rejected e => catch_ e
             | Resolved data =>
                 Do (SetState (SetProfiles data))
                   match get_prop "activeProfileId" data with
                   | Rejected e => catch_ e
                   | Resolved a => Do (SetState (SetActiveProfileId a)) finally_
                   end
             end
       end)).

(** [{ ...prev, [name]: value }]. *)
Fixpoint obj_set (k : string) (v : json) (kv : list (string * json)) : list (string * json) :=
  match kv with
  | [] => [(k, v)]
  | (k', v') :: rest => if String.eqb k k' then (k, v) :: rest else (k', v') :: obj_set k v rest
  end.

(** *** [handleInputChange], on the state the updater function receives. *)
Definition handleInputChange (name value : string) (prev : State) : State :=
  apply_update (SetFormData (obj_set name (JStr value) (formData prev))) prev.

(** *** [handleCreateProfile]; [c] is the state the handler closed over, that
    of the rendering pass that created it. *)
Definition handleCreateProfile (c : State) : prog :=
  let finally_ := Do (SetState (SetIsLoading false)) Ret in
  let catch_ e :=
    Do (ConsoleError "Error creating profile:" e)
      (Do (ToastError (JStr "Failed to create profile")) finally_) in
  Do PreventDefault (
  Do (SetState (SetError JNull)) (
  Do (SetState (SetIsLoading true)) (
  AwaitVerify (assoc "iptvUrl" (formData c)) (assoc "iptvUsername" (formData c))
              (assoc "iptvPassword" (formData c))
    (fun verdict =>
       match verdict with
       | Rejected e => catch_ e
       | Resolved isValid =>
           if negb isValid then
             Do (ToastError (JStr "Invalid IPTV credentials. Please check your URL, username, and password."))
               finally_
           else
             AwaitFetch (createRequest (formData c))
               (fun reply =>
                  match reply with
                  | Rejected e => catch_ e
                  | Resolved response =>
                      if ok response then
                        Do (ToastSuccess "Profile created successfully") (
                        Do (SetState (SetFormData emptyForm)) (
                        Do (SetState (SetIsDialogOpen false)) (
                        fetchProfiles (Do RouterRefresh finally_))))
                      else
                        match json_of response with
                        | Rejected e => catch_ e
                        | Resolved data =>
                            match get_prop "message" data with
                            | Rejected e => catch_ e
                            | Resolved m =>
                                Do (ToastError (js_or m (JStr "Failed to create profile")))
                                  finally_
                            end
                        end
                  end)
       end)))).

(** [l.find(p => p.id === profileId)]. *)
Fixpoint find_profile (profileId : Z) (l : list json) : outcome json :=
  match l with
  | [] => Resolved JUndef
  | p :: rest =>
      match get_prop "id" p with
      | Rejected e => Rejected e
      | Resolved i => if strict_eq_num i profileId then Resolved p else find_profile profileId rest
      end
  end.

(** [profiles.find(...)] on whatever the state cell holds: only arrays have
    the method. *)
Definition profiles_find (profileId : Z) (v : json) : outcome json :=
  match v with
  | JArr l => find_profile profileId l
  | _ => Rejected TypeError
  end.

(** *** [handleSetActiveProfile] *)
Definition handleSetActiveProfile (c : State) (profileId : Z) : prog :=
  let finally_ := Do (SetState (SetIsLoading false)) Ret in
  let catch_ e :=
    Do (ConsoleError "Error setting active profile:" e)
      (Do (ToastError (JStr "Failed to set active profile")) finally_) in
  Do (SetState (SetIsLoading true)) (
  AwaitFetch (setActiveRequest profileId)
    (fun reply =>
       match reply with
       | Rejected e => catch_ e
       | Resolved response =>
           if ok response then
             match json_of response with
             | Rejected e => catch_ e
             | Resolved data =>
                 match get_prop "token" data with
                 | Rejected e => catch_ e
                 | Resolved token =>
                     (if truthy token then Do (SetClientSession token) else fun k => k) (
                     Do (SetState (SetActiveProfileId (JNum profileId)))
                       match profiles_find profileId (profiles c) with
                       | Rejected e => catch_ e
                       | Resolved activeProfile =>
                           (if truthy activeProfile
                            then Do (StorageSetItem "activeProfile"
                                       (to_text (JSON_stringify activeProfile)))
                            else fun k => k) (
                           Do (ToastSuccess "Active profile updated successfully") (
                           Do (RouterPush "/") (
                           Do RouterRefresh finally_)))
                       end)
                 end
             end
           else finally_
       end)).

(** *** [deleteProfile] *)
Definition deleteProfile (profileId : Z) : prog :=
  let catch_ e :=
    Do (ConsoleError "Error deleting profile:" e)
      (Do (SetState (SetError (JStr "Failed to delete profile"))) Ret) in
  AwaitFetch (deleteRequest profileId)
    (fun reply =>
       match reply with
       | Rejected e => catch_ e
       | Resolved response =>
           if negb (ok response) then
             match json_of response with
             | Rejected e => catch_ e
             | Resolved data =>
                 match get_prop "error" data with
                 | Rejected e => catch_ e
                 | Resolved m =>
                     Do (SetState (SetError (js_or m (JStr "Failed to delete profile")))) Ret
                 end
             end
           else fetchProfiles Ret
       end).

(** ** The rendered element tree

    Elements carry the props the JSX gives them, nothing more: a control is
    disabled exactly when a [disabled] prop is among them. *)

Inductive Handler : Type :=
| OnOpenChange
| OnSubmit
| OnChange
| OnSetActive (arg : json)
| OnDelete (arg : json).

Record Button : Type := mkButton {
  onClick : option Handler;
  attrs : list (string * string);
  children : string
}.

Definition disabled (b : Button) : bool :=
  existsb (fun a => String.eqb a.1 "disabled") (attrs b).

Record Input : Type := mkInput {
  input_attrs : list (string * string);
  input_value : json;
  onChange : option Handler
}.

Record Form : Type := mkForm {
  onSubmit : Handler;
  inputs : list Input;
  submit : Button
}.

Record Dialog : Type := mkDialog {
  dialog_open : bool;
  onOpenChange : Handler;
  trigger : Button;
  content : Form
}.

Record Card : Type := mkCard {
  key : json;
  className : string;
  title : json;
  check_mark : bool;
  url_line : json;
  activate : Button;
  remove : option Button
}.

(** The children of the grid: the cards, or the falsy value that
    [profiles && ...] evaluates to. *)
Inductive Grid : Type :=
| Cards (l : list Card)
| Bare (v : json).

Inductive View : Type :=
| Spinner
| Page (dialog : Dialog) (grid : Grid).

Definition cards_of (g : Grid) : list Card :=
  match g with
  | Cards l => l
  | Bare _ => []
  end.

Definition text_input (name : string) (extra : list (string * string)) (s : State) : Input :=
  {| input_attrs := [("id", name); ("name", name)] ++ extra ++ [("required", "true")];
     input_value := assoc name (formData s);
     onChange := Some OnChange |}.

(** [user?.id]. *)
Definition user_id (s : State) : outcome json :=
  match user s with
  | JUndef | JNull => Resolved JUndef
  | u => get_prop "id" u
  end.

Definition render_dialog (s : State) : outcome Dialog :=
  match user_id s with
  | Rejected e => Rejected e
  | Resolved uid =>
      Resolved
        {| dialog_open := isDialogOpen s;
           onOpenChange := OnOpenChange;
           trigger := {| onClick := None; attrs := []; children := "Add Profile" |};
           content :=
             {| onSubmit := OnSubmit;
                inputs :=
                  [ {| input_attrs := [("type", "hidden"); ("name", "userId")];
                       input_value := uid; onChange := None |};
                    text_input "name" [] s;
                    text_input "iptvUrl" [] s;
                    text_input "iptvUsername" [] s;
                    text_input "iptvPassword" [("type", "password")] s ];
                submit := {| onClick := None;
                             attrs := [("type", "submit"); ("className", "w-full")];
                             children := "Add Profile" |} |} |}
  end.

(** One card of [profiles.map((profile) => ...)]. *)
Definition render_card (profile : json) : outcome Card :=
  match get_prop "id" profile, get_prop "isActive" profile,
        get_prop "name" profile, get_prop "iptvUrl" profile with
  | Resolved id, Resolved isActive, Resolved name, Resolved iptvUrl =>
      Resolved
        {| key := id;
           className := "p-4 rounded-lg border " +:+
                        (if truthy isActive then "border-green-500" else "border-gray-200");
           title := name;
           check_mark := truthy isActive;
           url_line := iptvUrl;
           activate :=
             {| onClick := Some (OnSetActive id);
                attrs := [("variant", if truthy isActive then "secondary" else "outline");
                          ("className", "flex-1")];
                children := if truthy isActive then "Active" else "Set Active" |};
           remove :=
             if negb (truthy isActive)
             then Some {| onClick := Some (OnDelete id);
                          attrs := [("variant", "destructive"); ("size", "icon")];
                          children := "Trash2" |}
             else None |}
  | _, _, _, _ => Rejected TypeError
  end.

Fixpoint render_cards (l : list json) : outcome (list Card) :=
  match l with
  | [] => Resolved []
  | p :: rest =>
      match render_card p with
      | Rejected e => Rejected e
      | Resolved c =>
          match render_cards rest with
          | Rejected e => Rejected e
          | Resolved cs => Resolved (c :: cs)
          end
      end
  end.

(** [profiles && profiles.map(...)]. *)
Definition render_grid (v : json) : outcome Grid :=
  if truthy v then
    match v with
    | JArr l =>
        match render_cards l with
        | Rejected e => Rejected e
        | Resolved cs => Resolved (Cards cs)
        end
    | _ => Rejected TypeError
    end
  else Resolved (Bare v).

(** The component function after its hooks: the element tree [Profiles]
    returns when the state cells hold [s], or the error it throws. *)
Definition Profiles (s : State) : outcome View :=
  if loading s then Resolved Spinner
  else
    match render_dialog s with
    | Rejected e => Rejected e
    | Resolved d =>
        match render_grid (profiles s) with
        | Rejected e => Rejected e
        | Resolved g => Resolved (Page d g)
        end
    end.

(** The handlers a user can fire on a view: those of controls that are not
    disabled; the form is on screen while the dialog is open. *)
Definition button_handlers (b : Button) : list Handler :=
  if disabled b then [] else from_option (fun h => [h]) [] (onClick b).

Definition card_handlers (c : Card) : list Handler :=
  button_handlers (activate c) ++ from_option button_handlers [] (remove c).

Definition dialog_handlers (d : Dialog) : list Handler :=
  onOpenChange d ::
  (if dialog_open d
   then (if disabled (submit (content d)) then [] else [onSubmit (content d)])
        ++ omap onChange (inputs (content d))
   else []).

Definition handlers (v : View) : list Handler :=
  match v with
  | Spinner => []
  | Page d g => dialog_handlers d ++ concat (map card_handlers (cards_of g))
  end.

(** ** Reading traces and views *)

Definition is_fetch (ev : event) : Prop :=
  match ev with Fetched _ _ => True | _ => False end.

Definition is_state_write (ev : event) : Prop :=
  match ev with Did (SetState _) => True | _ => False end.

Definition is_log (ev : event) : Prop :=
  match ev with Did (ConsoleError _ _) => True | _ => False end.

Definition is_toast (ev : event) : Prop :=
  match ev with Did (ToastError _) | Did (ToastSuccess _) => True | _ => False end.

Definition is_storage_write (ev : event) : Prop :=
  match ev with Did (StorageSetItem _ _) => True | _ => False end.

(** [profile.isActive] read as a condition. *)
Definition is_active (profile : json) : bool :=
  match get_prop "isActive" profile with
  | Resolved a => truthy a
  | Rejected _ => false
  end.

(** The [variant] prop of a button. *)
Definition assoc_variant (b : Button) : string :=
  from_option snd EmptyString (find (fun a => String.eqb a.1 "variant") (attrs b)).

(** The cards whose main button reads "Active". *)
Definition shows_active (c : Card) : bool := String.eqb (children (activate c)) "Active".

(** ** Sample data

    The profile list of the specification's scenario, a page showing it, the
    same page with the creation dialog filled in, and outside worlds that
    give every call the same reply. *)

Definition profileA : json :=
  JObj [("id", JNum 1); ("name", JStr "A"); ("isActive", JBool true)].

Definition profileB : json :=
  JObj [("id", JNum 2); ("name", JStr "B"); ("isActive", JBool false)].

Definition readyState : State :=
  {| profiles := JArr [profileA; profileB]; loading := false; activeProfileId := JNum 1;
     isDialogOpen := false;
     user := JObj [("id", JNum 7); ("email", JStr "user@example.org")];
     formData := emptyForm; error := JNull; isLoading := false |}.

Definition filledForm : list (string * json) :=
  [("name", JStr "C"); ("iptvUrl", JStr "http://tv.example.org");
   ("iptvUsername", JStr "carol"); ("iptvPassword", JStr "wrong")].

Definition dialogState : State :=
  {| profiles := JArr [profileA; profileB]; loading := false; activeProfileId := JNum 1;
     isDialogOpen := true;
     user := JObj [("id", JNum 7); ("email", JStr "user@example.org")];
     formData := filledForm; error := JStr "Failed to delete profile"; isLoading := false |}.

(** A list the server should never send: two profiles flagged active. *)
Definition twoActiveState : State :=
  {| profiles := JArr [profileA; JObj [("id", JNum 2); ("name", JStr "B"); ("isActive", JBool true)]];
     loading := false; activeProfileId := JNum 1; isDialogOpen := false;
     user := JObj [("id", JNum 7); ("email", JStr "user@example.org")];
     formData := emptyForm; error := JNull; isLoading := false |}.

Definition readyWorld : World := mkWorld readyState ∅.
Definition dialogWorld : World := mkWorld dialogState ∅.

Definition replying (r : outcome response) (v : outcome bool) : Outside :=
  {| fetch := fun _ _ => r; verifyIPTVCredentials := fun _ _ _ _ => v |}.

Definition offline : outcome response := Rejected "Failed to fetch".

Definition envelope : json :=
  JObj [("profiles", JArr [profileA; profileB]); ("activeProfileId", JNum 1)].

Definition serverError : response :=
  {| status := 500; payload := Some (JObj [("error", JStr "Internal Server Error")]) |}.

Definition tokenReply : response :=
  {| status := 200; payload := Some (JObj [("token", JStr "t2")]) |}.

(** ** The mount effect

    [initializeUser], the body of the [useEffect]; its argument is how
    [await getClientSession()] settled.  When the lookup rejects, the promise
    of [initializeUser] rejects and nothing handles it: the page does nothing
    more. *)
Definition initializeUser (lookup : outcome json) : prog :=
  match lookup with
  | Rejected _ => Ret
  | Resolved session =>
      if truthy session
      then Do (SetState (SetUser session)) (fetchProfiles Ret)
      else Do (RouterPush "/login") Ret
  end.

(** ** Projections of a trace and of a list of profiles *)

(** The requests issued, in order. *)
Definition fetches (t : list event) : list request :=
  omap (fun ev => match ev with Fetched r _ => Some r | _ => None end) t.

(** The notifications shown, in order. *)
Definition toasts (t : list event) : list effect :=
  omap (fun ev => match ev with
                  | Did (ToastError m) => Some (ToastError m)
                  | Did (ToastSuccess m) => Some (ToastSuccess m)
                  | _ => None
                  end) t.

(** The calls of [verifyIPTVCredentials], in order. *)
Definition verifications (t : list event) : list (json * json * json) :=
  omap (fun ev => match ev with Verified u a p _ => Some (u, a, p) | _ => None end) t.

(** The route changes, in order. *)
Definition navigations (t : list event) : list string :=
  omap (fun ev => match ev with Did (RouterPush path) => Some path | _ => None end) t.

(** The tokens given to [setClientSession], in order. *)
Definition sessions (t : list event) : list json :=
  omap (fun ev => match ev with Did (SetClientSession token) => Some token | _ => None end) t.

(** The console messages, in order. *)
Definition logs (t : list event) : list (string * string) :=
  omap (fun ev => match ev with Did (ConsoleError l e) => Some (l, e) | _ => None end) t.

Definition is_object (v : json) : bool :=
  match v with JObj _ => true | _ => false end.

(** [profile.id] of an entry that has properties. *)
Definition profile_id (p : json) : json :=
  match get_prop "id" p with
  | Resolved i => i
  | Rejected _ => JUndef
  end.

(** An outside world that answers the external calls from a script, by
    position; calls beyond the script fail. *)
Definition scripted (replies : list (outcome response)) (v : outcome bool) : Outside :=
  {| fetch := fun n _ => default (Rejected "Failed to fetch") (replies !! n);
     verifyIPTVCredentials := fun _ _ _ _ => v |}.

Definition unauthorized : response := {| status := 401; payload := None |}.

Definition listReply : response :=
  {| status := 200; payload := Some (JArr [profileA; profileB]) |}.

Definition created : response :=
  {| status := 201; payload := Some (JObj [("id", JNum 3)]) |}.

Definition rejectedCreate : response :=
  {| status := 400; payload := Some (JObj [("message", JStr "Name already used")]) |}.

Definition gatewayError : response := {| status := 502; payload := None |}.

Definition deleted : response := {| status := 200; payload := Some (JObj [("success", JBool true)]) |}.

Definition sessionOf7 : json := JObj [("id", JNum 7); ("email", JStr "user@example.org")].

(** * Properties *)

(** ** Traces *)

Lemma split_after_three (e1 e2 e3 : effect) (v x : event) (rest t1 t2 : list event) :
  Did e1 :: Did e2 :: Did e3 :: v :: rest = t1 ++ x :: t2 →
  is_fetch x → ¬ is_fetch v → v ∈ t1.
Proof.
  intros E Hx Hv.
  destruct t1 as [|a [|b [|d [|f t1]]]]; simplify_eq/=; try done.
  set_solver.
Qed.

(** Follow every path of a handler: each reply, status test and property
    read that the trace depends on is split into its cases. *)
Ltac run_paths :=
  cbn [run emit fst snd perform state localStorage];
  repeat (case_match; cbn [run emit fst snd perform state localStorage]).

(** C1 (amended): when [verifyIPTVCredentials] resolves false,
    [handleCreateProfile] issues no request at all, shows the error
    notification, and leaves the dialog flag, the profile list, the active
    identifier, the staged form, the session and local storage as they were;
    the only state writes are the clearing of [error] and the raising and
    lowering of [isLoading].  In every execution, whatever the replies, a
    request is preceded by a verification that resolved true. *)
Theorem create_invalid_aborts (o : Outside) (c : State) (w : World) :
  let r := run o (handleCreateProfile c) 0 w in
  ((∃ u a p, Verified u a p (Resolved false) ∈ r.2) →
     r.2 = [ Did PreventDefault;
             Did (SetState (SetError JNull));
             Did (SetState (SetIsLoading true));
             Verified (assoc "iptvUrl" (formData c)) (assoc "iptvUsername" (formData c))
                      (assoc "iptvPassword" (formData c)) (Resolved false);
             Did (ToastError (JStr "Invalid IPTV credentials. Please check your URL, username, and password."));
             Did (SetState (SetIsLoading false)) ]
     ∧ (∀ ev, ev ∈ r.2 → ¬ is_fetch ev)
     ∧ isDialogOpen (state r.1) = isDialogOpen (state w)
     ∧ profiles (state r.1) = profiles (state w)
     ∧ activeProfileId (state r.1) = activeProfileId (state w)
     ∧ formData (state r.1) = formData (state w)
     ∧ user (state r.1) = user (state w)
     ∧ loading (state r.1) = loading (state w)
     ∧ localStorage r.1 = localStorage w
     ∧ error (state r.1) = JNull
     ∧ isLoading (state r.1) = false)
  ∧ (∀ t1 x t2, r.2 = t1 ++ x :: t2 → is_fetch x →
       ∃ u a p, Verified u a p (Resolved true) ∈ t1).
Proof.
  unfold handleCreateProfile, fetchProfiles.
  cbn [run emit fst snd perform state localStorage].
  destruct (verifyIPTVCredentials o 0 _ _ _) as [[|]|e] eqn:V.
  - split.
    + intros (u & a & p & Hin). exfalso. revert Hin. run_paths.
      all: intros Hin%list_elem_of_In; simpl in Hin; intuition discriminate.
    + intros t1 x t2 E Hx. exists (assoc "iptvUrl" (formData c)), (assoc "iptvUsername" (formData c)),
        (assoc "iptvPassword" (formData c)).
      eapply split_after_three; [exact E | exact Hx | simpl; tauto].
  - cbn. split.
    + intros _. repeat split; try done.
      intros ev H%list_elem_of_In. simpl in H.
      repeat destruct H as [<-|H]; simpl; tauto.
    + intros t1 x t2 E Hx. exfalso.
      assert (x ∈ t1 ++ x :: t2) as Hin by set_solver.
      rewrite <- E in Hin. apply list_elem_of_In in Hin. simpl in Hin.
      destruct x; simpl in Hx; intuition discriminate.
  - cbn. split.
    + intros (u & a & p & H%list_elem_of_In). simpl in H. intuition discriminate.
    + intros t1 x t2 E Hx. exfalso.
      assert (x ∈ t1 ++ x :: t2) as Hin by set_solver.
      rewrite <- E in Hin. apply list_elem_of_In in Hin. simpl in Hin.
      destruct x; simpl in Hx; intuition discriminate.
Qed.

Lemma create_invalid_aborts_witness :
  (∃ u a p, Verified u a p (Resolved false)
              ∈ (run (replying offline (Resolved false)) (handleCreateProfile dialogState) 0 dialogWorld).2)
  ∧ isDialogOpen (state (run (replying offline (Resolved false))
                           (handleCreateProfile dialogState) 0 dialogWorld).1) = true
  ∧ error (state (run (replying offline (Resolved false))
                    (handleCreateProfile dialogState) 0 dialogWorld).1) = JNull.
Proof.
  assert (∃ u a p, Verified u a p (Resolved false)
            ∈ (run (replying offline (Resolved false)) (handleCreateProfile dialogState) 0 dialogWorld).2)
    as P.
  { eexists _, _, _. apply list_elem_of_In. vm_compute. do 3 right. left. reflexivity. }
  split; [exact P|].
  destruct (create_invalid_aborts (replying offline (Resolved false)) dialogState dialogWorld)
    as [H _].
  destruct (H P) as (_ & _ & Hd & _ & _ & _ & _ & _ & _ & He & _).
  split; [exact Hd | exact He].
Defined.

(** C1 as stated does not hold: with a wrong password the handler still calls
    state setters, and an error message left by an earlier deletion is gone
    afterwards. *)
Lemma create_invalid_writes_state :
  (∃ u a p, Verified u a p (Resolved false)
              ∈ (run (replying offline (Resolved false)) (handleCreateProfile dialogState) 0 dialogWorld).2)
  ∧ (∃ ev, ev ∈ (run (replying offline (Resolved false)) (handleCreateProfile dialogState) 0 dialogWorld).2
           ∧ is_state_write ev)
  ∧ state (run (replying offline (Resolved false)) (handleCreateProfile dialogState) 0 dialogWorld).1
    ≠ state dialogWorld.
Proof.
  split; [|split].
  - eexists _, _, _. apply list_elem_of_In. vm_compute. do 3 right. left. reflexivity.
  - exists (Did (SetState (SetError JNull))). split; [|exact I].
    apply list_elem_of_In. vm_compute. right. left. reflexivity.
  - vm_compute. discriminate.
Qed.

(** ** [fetchProfiles] *)

(** Whatever parses and is not answered with 401 is stored: the parsed body in
    [profiles], its [activeProfileId] property in [activeProfileId]. *)
Lemma fetchProfiles_stores_body o w resp kv :
  fetch o 0 (listRequest (localStorage w !! "token")) = Resolved resp →
  status resp ≠ 401 →
  payload resp = Some (JObj kv) →
  run o (fetchProfiles Ret) 0 w =
    (mkWorld (apply_update (SetLoading false)
                (apply_update (SetActiveProfileId (assoc "activeProfileId" kv))
                   (apply_update (SetProfiles (JObj kv)) (state w))))
             (localStorage w),
     [ Fetched (listRequest (localStorage w !! "token")) (Resolved resp);
       Did (SetState (SetProfiles (JObj kv)));
       Did (SetState (SetActiveProfileId (assoc "activeProfileId" kv)));
       Did (SetState (SetLoading false)) ]).
Proof.
  intros F S P. unfold fetchProfiles, json_of.
  cbn [run emit]. rewrite F.
  apply Z.eqb_neq in S. rewrite S, P.
  reflexivity.
Qed.

(** A state whose [profiles] cell holds an object cannot be rendered. *)
Lemma render_object_throws s kv :
  loading s = false → profiles s = JObj kv → Profiles s = Rejected TypeError.
Proof.
  intros L P. unfold Profiles, render_dialog, user_id. rewrite L, P.
  destruct (user s); reflexivity.
Qed.

(** When the request or the parsing of its body throws, the two cells are
    left as they were and the error goes to the console. *)
Lemma fetchProfiles_thrown_keeps_state o w :
  (∃ e, fetch o 0 (listRequest (localStorage w !! "token")) = Rejected e)
  ∨ (∃ resp, fetch o 0 (listRequest (localStorage w !! "token")) = Resolved resp
             ∧ status resp ≠ 401 ∧ payload resp = None) →
  profiles (state (run o (fetchProfiles Ret) 0 w).1) = profiles (state w)
  ∧ activeProfileId (state (run o (fetchProfiles Ret) 0 w).1) = activeProfileId (state w)
  ∧ ∃ ev, ev ∈ (run o (fetchProfiles Ret) 0 w).2 ∧ is_log ev.
Proof.
  unfold fetchProfiles, json_of. cbn [run emit].
  intros [[e F] | (resp & F & S & P)]; rewrite F.
  - cbn. repeat split. eexists. split; [apply list_elem_of_In; right; left; reflexivity | exact I].
  - apply Z.eqb_neq in S. rewrite S, P. cbn. repeat split.
    eexists. split; [apply list_elem_of_In; right; left; reflexivity | exact I].
Qed.

(** C2 (code at the failing input and at every envelope): a 200 response whose
    body is the object [{ profiles: [...], activeProfileId }] puts the whole
    object, not its [profiles] list, into the [profiles] cell; the identifier
    is stored as the claim says, and the page can no longer be rendered. *)
Theorem fetchProfiles_keeps_envelope o w resp kv ps :
  fetch o 0 (listRequest (localStorage w !! "token")) = Resolved resp →
  status resp = 200 →
  payload resp = Some (JObj kv) →
  assoc "profiles" kv = JArr ps →
  profiles (state (run o (fetchProfiles Ret) 0 w).1) = JObj kv
  ∧ profiles (state (run o (fetchProfiles Ret) 0 w).1) ≠ JArr ps
  ∧ activeProfileId (state (run o (fetchProfiles Ret) 0 w).1) = assoc "activeProfileId" kv
  ∧ Profiles (state (run o (fetchProfiles Ret) 0 w).1) = Rejected TypeError.
Proof.
  intros F S P _.
  rewrite (fetchProfiles_stores_body o w resp kv F) by (rewrite ?S; done).
  split; [reflexivity|]. split; [discriminate|]. split; [reflexivity|].
  apply (render_object_throws _ kv); reflexivity.
Qed.

Lemma fetchProfiles_keeps_envelope_witness :
  profiles (state (run (replying (Resolved (mkResponse 200 (Some envelope))) (Resolved true))
                     (fetchProfiles Ret) 0 readyWorld).1) = envelope
  ∧ Profiles (state (run (replying (Resolved (mkResponse 200 (Some envelope))) (Resolved true))
                     (fetchProfiles Ret) 0 readyWorld).1) = Rejected TypeError.
Proof.
  destruct (fetchProfiles_keeps_envelope
              (replying (Resolved (mkResponse 200 (Some envelope))) (Resolved true))
              readyWorld (mkResponse 200 (Some envelope))
              [("profiles", JArr [profileA; profileB]); ("activeProfileId", JNum 1)]
              [profileA; profileB])
    as (H1 & _ & _ & H4); try reflexivity.
  split; [exact H1 | exact H4].
Defined.

(** C3 (code at the failing input and at every such response): a response that
    is neither a success nor 401 but carries a JSON object overwrites both
    cells with that error body, and nothing is logged. *)
Theorem fetchProfiles_error_status_overwrites o w resp kv :
  fetch o 0 (listRequest (localStorage w !! "token")) = Resolved resp →
  ok resp = false →
  status resp ≠ 401 →
  payload resp = Some (JObj kv) →
  profiles (state (run o (fetchProfiles Ret) 0 w).1) = JObj kv
  ∧ activeProfileId (state (run o (fetchProfiles Ret) 0 w).1) = assoc "activeProfileId" kv
  ∧ ∀ ev, ev ∈ (run o (fetchProfiles Ret) 0 w).2 → ¬ is_log ev.
Proof.
  intros F _ S P.
  rewrite (fetchProfiles_stores_body o w resp kv F S P).
  cbn. repeat split.
  intros ev H%list_elem_of_In. simpl in H.
  repeat destruct H as [<-|H]; simpl; tauto.
Qed.

Lemma fetchProfiles_error_status_overwrites_witness :
  profiles (state (run (replying (Resolved serverError) (Resolved true))
                     (fetchProfiles Ret) 0 readyWorld).1)
    = JObj [("error", JStr "Internal Server Error")]
  ∧ activeProfileId (state (run (replying (Resolved serverError) (Resolved true))
                              (fetchProfiles Ret) 0 readyWorld).1) = JUndef
  ∧ profiles (state readyWorld) = JArr [profileA; profileB].
Proof.
  destruct (fetchProfiles_error_status_overwrites
              (replying (Resolved serverError) (Resolved true))
              readyWorld serverError [("error", JStr "Internal Server Error")])
    as (H1 & H2 & _); try reflexivity.
  - vm_compute. discriminate.
  - split; [exact H1 | split; [exact H2 | reflexivity]].
Defined.

(** ** [handleSetActiveProfile] when the request fails *)

(** A thrown request is logged and reported with the generic toast. *)
Lemma setActive_thrown_is_reported o c profileId w e :
  fetch o 0 (setActiveRequest profileId) = Rejected e →
  (run o (handleSetActiveProfile c profileId) 0 w).2 =
    [ Did (SetState (SetIsLoading true));
      Fetched (setActiveRequest profileId) (Rejected e);
      Did (ConsoleError "Error setting active profile:" e);
      Did (ToastError (JStr "Failed to set active profile"));
      Did (SetState (SetIsLoading false)) ].
Proof.
  intros F. unfold handleSetActiveProfile. cbn [run emit]. rewrite F. reflexivity.
Qed.

(** C5 (code at the failing input and at every rejected status): when the
    activation request is answered with a status outside 200..299, the handler
    only raises and lowers [isLoading]; it writes nothing to the console and
    shows no toast. *)
Theorem setActive_failed_status_is_silent o c profileId w resp :
  fetch o 0 (setActiveRequest profileId) = Resolved resp →
  ok resp = false →
  (run o (handleSetActiveProfile c profileId) 0 w).2 =
    [ Did (SetState (SetIsLoading true));
      Fetched (setActiveRequest profileId) (Resolved resp);
      Did (SetState (SetIsLoading false)) ]
  ∧ ∀ ev, ev ∈ (run o (handleSetActiveProfile c profileId) 0 w).2 → ¬ is_log ev ∧ ¬ is_toast ev.
Proof.
  intros F K. unfold handleSetActiveProfile. cbn [run emit]. rewrite F, K.
  split; [reflexivity|].
  intros ev H%list_elem_of_In. simpl in H.
  repeat destruct H as [<-|H]; simpl; tauto.
Qed.

Lemma setActive_failed_status_is_silent_witness :
  (run (replying (Resolved serverError) (Resolved true))
       (handleSetActiveProfile readyState 2) 0 readyWorld).2 =
    [ Did (SetState (SetIsLoading true));
      Fetched (setActiveRequest 2) (Resolved serverError);
      Did (SetState (SetIsLoading false)) ].
Proof.
  apply (setActive_failed_status_is_silent
           (replying (Resolved serverError) (Resolved true)) readyState 2 readyWorld serverError);
    reflexivity.
Defined.

(** ** [deleteProfile] *)

Lemma render_ignores_error s v : Profiles (apply_update (SetError v) s) = Profiles s.
Proof. reflexivity. Qed.

Lemma render_ignores_isLoading s b : Profiles (apply_update (SetIsLoading b) s) = Profiles s.
Proof. reflexivity. Qed.

(** After a successful DELETE the list is fetched again, and only then. *)
Lemma deleteProfile_refetch o profileId w resp :
  fetch o 0 (deleteRequest profileId) = Resolved resp →
  (ok resp = true →
     ∃ reply rest,
       (run o (deleteProfile profileId) 0 w).2 =
         Fetched (deleteRequest profileId) (Resolved resp)
         :: Fetched (listRequest (localStorage w !! "token")) reply :: rest)
  ∧ (ok resp = false →
     ∀ ev, ev ∈ (run o (deleteProfile profileId) 0 w).2 → is_fetch ev →
           ev = Fetched (deleteRequest profileId) (Resolved resp)).
Proof.
  intros F. unfold deleteProfile, fetchProfiles. cbn [run emit]. rewrite F. split; intros K; rewrite K.
  - cbn [negb run emit fst snd]. eexists _, _. reflexivity.
  - cbn [negb]. run_paths.
    all: intros ev Hin%list_elem_of_In Hf; simpl in Hin.
    all: repeat destruct Hin as [<-|Hin]; simpl in Hf; try tauto.
Qed.

(** C6 (code at the failing input and at every rejected DELETE): the message
    is captured in the [error] cell, the list is not fetched again, but
    nothing is shown: no toast is raised and the rendered page is the one
    from before, since [Profiles] never reads [error]. *)
Theorem deleteProfile_failure_not_displayed o profileId w resp data m :
  fetch o 0 (deleteRequest profileId) = Resolved resp →
  ok resp = false →
  payload resp = Some data →
  get_prop "error" data = Resolved m →
  (run o (deleteProfile profileId) 0 w).2 =
    [ Fetched (deleteRequest profileId) (Resolved resp);
      Did (SetState (SetError (js_or m (JStr "Failed to delete profile")))) ]
  ∧ error (state (run o (deleteProfile profileId) 0 w).1) = js_or m (JStr "Failed to delete profile")
  ∧ (∀ ev, ev ∈ (run o (deleteProfile profileId) 0 w).2 → ¬ is_toast ev)
  ∧ Profiles (state (run o (deleteProfile profileId) 0 w).1) = Profiles (state w).
Proof.
  intros F K P G. unfold deleteProfile, json_of. cbn [run emit]. rewrite F, K, P.
  cbn [negb]. rewrite G. cbn.
  repeat split.
  intros ev H%list_elem_of_In. simpl in H.
  repeat destruct H as [<-|H]; simpl; tauto.
Qed.

Lemma deleteProfile_failure_not_displayed_witness :
  error (state (run (replying (Resolved serverError) (Resolved true))
                  (deleteProfile 2) 0 readyWorld).1) = JStr "Internal Server Error"
  ∧ Profiles (state (run (replying (Resolved serverError) (Resolved true))
                     (deleteProfile 2) 0 readyWorld).1) = Profiles readyState.
Proof.
  destruct (deleteProfile_failure_not_displayed
              (replying (Resolved serverError) (Resolved true)) 2 readyWorld serverError
              (JObj [("error", JStr "Internal Server Error")]) (JStr "Internal Server Error"))
    as (_ & H2 & _ & H4); try reflexivity.
  split; [exact H2 | exact H4].
Defined.

(** ** The in-flight flag *)

Lemma create_lowers_flag o c n w :
  isLoading (state (run o (handleCreateProfile c) n w).1) = false.
Proof. unfold handleCreateProfile, fetchProfiles. run_paths; reflexivity. Qed.

Lemma setActive_lowers_flag o c profileId n w :
  isLoading (state (run o (handleSetActiveProfile c profileId) n w).1) = false.
Proof. unfold handleSetActiveProfile. run_paths; reflexivity. Qed.

(** Creation and activation raise [isLoading] before their first external
    call and have lowered it when they finish; the page is rendered without
    reading the flag. *)
Lemma in_flight_flag (c : State) (w : World) (profileId : Z) :
  (isLoading (state (suspend (handleCreateProfile c) w).1) = true
   ∧ (suspend (handleCreateProfile c) w).2
     = OnVerify (assoc "iptvUrl" (formData c)) (assoc "iptvUsername" (formData c))
                (assoc "iptvPassword" (formData c)))
  ∧ (isLoading (state (suspend (handleSetActiveProfile c profileId) w).1) = true
     ∧ (suspend (handleSetActiveProfile c profileId) w).2 = OnFetch (setActiveRequest profileId))
  ∧ (∀ o n, isLoading (state (run o (handleCreateProfile c) n w).1) = false)
  ∧ (∀ o n, isLoading (state (run o (handleSetActiveProfile c profileId) n w).1) = false)
  ∧ (∀ s b, Profiles (apply_update (SetIsLoading b) s) = Profiles s).
Proof.
  repeat split.
  - intros o n. apply create_lowers_flag.
  - intros o n. apply setActive_lowers_flag.
Qed.

(** C4 (code in every state, and at the failing input below): while an
    activation waits for its reply, and while a creation waits for the
    verification, [isLoading] is up but the page rendered from the state is
    the very page from before the click, with every control it had: nothing
    is disabled, since the JSX never reads the flag.  A deletion reaches its
    request without having written anything, the flag included. *)
Theorem pending_page_unchanged (c : State) (w : World) (profileId : Z) :
  (suspend (handleSetActiveProfile c profileId) w
     = (mkWorld (apply_update (SetIsLoading true) (state w)) (localStorage w),
        OnFetch (setActiveRequest profileId))
   ∧ Profiles (state (suspend (handleSetActiveProfile c profileId) w).1) = Profiles (state w))
  ∧ (suspend (handleCreateProfile c) w
       = (mkWorld (apply_update (SetIsLoading true) (apply_update (SetError JNull) (state w)))
                  (localStorage w),
          OnVerify (assoc "iptvUrl" (formData c)) (assoc "iptvUsername" (formData c))
                   (assoc "iptvPassword" (formData c)))
     ∧ Profiles (state (suspend (handleCreateProfile c) w).1) = Profiles (state w))
  ∧ suspend (deleteProfile profileId) w = (w, OnFetch (deleteRequest profileId)).
Proof.
  repeat split.
Qed.

(** At the failing input: with the activation of profile 2 pending the page
    still offers the enabled "Set Active" button of that card; with a
    creation pending the open dialog still offers the form; with a deletion
    pending [isLoading] is down and the delete control is still offered. *)
Lemma in_flight_not_gated :
  (isLoading (state (suspend (handleSetActiveProfile readyState 2) readyWorld).1) = true
   ∧ (suspend (handleSetActiveProfile readyState 2) readyWorld).2 = OnFetch (setActiveRequest 2)
   ∧ ∃ v, Profiles (state (suspend (handleSetActiveProfile readyState 2) readyWorld).1)
            = Resolved v
          ∧ OnSetActive (JNum 2) ∈ handlers v)
  ∧ (isLoading (state (suspend (handleCreateProfile dialogState) dialogWorld).1) = true
     ∧ (suspend (handleCreateProfile dialogState) dialogWorld).2
       = OnVerify (JStr "http://tv.example.org") (JStr "carol") (JStr "wrong")
     ∧ ∃ v, Profiles (state (suspend (handleCreateProfile dialogState) dialogWorld).1)
              = Resolved v
            ∧ OnSubmit ∈ handlers v)
  ∧ (isLoading (state (suspend (deleteProfile 2) readyWorld).1) = false
     ∧ (suspend (deleteProfile 2) readyWorld).2 = OnFetch (deleteRequest 2)
     ∧ ∃ v, Profiles (state (suspend (deleteProfile 2) readyWorld).1) = Resolved v
            ∧ OnDelete (JNum 2) ∈ handlers v).
Proof.
  destruct (pending_page_unchanged readyState readyWorld 2) as ((E1 & R1) & _ & E3).
  destruct (pending_page_unchanged dialogState dialogWorld 2) as (_ & (E2 & R2) & _).
  split; [|split].
  - rewrite R1, E1. split; [reflexivity|]. split; [reflexivity|].
    eexists. split; [reflexivity|]. apply list_elem_of_In. vm_compute. tauto.
  - rewrite R2, E2. split; [reflexivity|]. split; [reflexivity|].
    eexists. split; [reflexivity|]. apply list_elem_of_In. vm_compute. tauto.
  - rewrite E3. split; [reflexivity|]. split; [reflexivity|].
    eexists. split; [reflexivity|]. apply list_elem_of_In. vm_compute. tauto.
Defined.

(** ** The profile cards *)

Lemma render_cards_Forall2 l cs :
  render_cards l = Resolved cs → Forall2 (fun p c => render_card p = Resolved c) l cs.
Proof.
  revert cs. induction l as [|p l IH]; intros cs H; simpl in H.
  - injection H as <-. constructor.
  - destruct (render_card p) as [c|] eqn:Hc; [|discriminate].
    destruct (render_cards l) as [cs'|] eqn:Hl; [|discriminate].
    injection H as <-. constructor; auto.
Qed.

(** A rendered page shows one card per entry of an array held in [profiles]. *)
Lemma render_page_cards s d g l :
  Profiles s = Resolved (Page d g) → profiles s = JArr l →
  render_cards l = Resolved (cards_of g).
Proof.
  unfold Profiles, render_grid. intros H P. rewrite P in H.
  destruct (loading s); [discriminate|].
  destruct (render_dialog s); [|discriminate].
  cbn in H. destruct (render_cards l); [|discriminate].
  injection H as _ <-. reflexivity.
Qed.

(** A page with at least one card was rendered from an array. *)
Lemma render_page_array s d g card :
  Profiles s = Resolved (Page d g) → card ∈ cards_of g → ∃ l, profiles s = JArr l.
Proof.
  unfold Profiles, render_grid. intros H Hc.
  destruct (loading s); [discriminate|].
  destruct (render_dialog s); [|discriminate].
  destruct (truthy (profiles s)).
  - destruct (profiles s); try discriminate. eauto.
  - injection H as _ <-. simpl in Hc. inversion Hc.
Qed.

Lemma render_card_inv p c :
  render_card p = Resolved c →
  ∃ id name iptvUrl,
    get_prop "id" p = Resolved id
    ∧ c = {| key := id;
             className := "p-4 rounded-lg border " +:+
                          (if is_active p then "border-green-500" else "border-gray-200");
             title := name;
             check_mark := is_active p;
             url_line := iptvUrl;
             activate :=
               {| onClick := Some (OnSetActive id);
                  attrs := [("variant", if is_active p then "secondary" else "outline");
                            ("className", "flex-1")];
                  children := if is_active p then "Active" else "Set Active" |};
             remove :=
               if negb (is_active p)
               then Some {| onClick := Some (OnDelete id);
                            attrs := [("variant", "destructive"); ("size", "icon")];
                            children := "Trash2" |}
               else None |}.
Proof.
  unfold render_card, is_active. intros H.
  destruct (get_prop "id" p) as [id|]; [|discriminate].
  destruct (get_prop "isActive" p) as [a|]; [|discriminate].
  destruct (get_prop "name" p) as [name|]; [|discriminate].
  destruct (get_prop "iptvUrl" p) as [u|]; [|discriminate].
  injection H as <-. eauto.
Qed.

Lemma shows_active_iff p c :
  render_card p = Resolved c → shows_active c = is_active p.
Proof.
  intros (id & name & u & _ & ->)%render_card_inv. unfold shows_active. simpl.
  destruct (is_active p); reflexivity.
Qed.

Lemma count_active_cards l cs :
  Forall2 (fun p c => render_card p = Resolved c) l cs →
  length (filter (fun c => shows_active c = true) cs)
  = length (filter (fun p => is_active p = true) l).
Proof.
  induction 1 as [|p c l cs H _ IH]; [reflexivity|].
  rewrite !filter_cons. rewrite (shows_active_iff p c H).
  destruct (decide (is_active p = true)); simpl; auto.
Qed.

Lemma dialog_handlers_inv s d h :
  render_dialog s = Resolved d → h ∈ dialog_handlers d →
  h = OnOpenChange ∨ h = OnSubmit ∨ h = OnChange.
Proof.
  unfold render_dialog. destruct (user_id s); [|discriminate].
  intros H. injection H as <-. unfold dialog_handlers. cbn.
  destruct (isDialogOpen s); intros Hin%list_elem_of_In; simpl in Hin; intuition.
Qed.

Lemma card_handlers_inv p c h :
  render_card p = Resolved c → h ∈ card_handlers c →
  ∃ id, get_prop "id" p = Resolved id
        ∧ (h = OnSetActive id ∨ (h = OnDelete id ∧ is_active p = false)).
Proof.
  intros (id & name & u & Hi & ->)%render_card_inv. exists id. split; [exact Hi|].
  revert H. unfold card_handlers, button_handlers. cbn.
  destruct (is_active p); cbn; intros Hin%list_elem_of_In; simpl in Hin; intuition.
Qed.



(** C7 (amended): on every rendered page each card of a profile whose
    [isActive] holds has the button "Active" and every other card the button
    "Set Active"; both are enabled and start the activation of that entry's
    own [id], which is also the card's key (the "Active" one differs by its
    variant only).  There are as many "Active" cards as active profiles in
    the list, hence at most one when at most one profile is active. *)
Theorem activate_buttons (s : State) (d : Dialog) (g : Grid) (l : list json) :
  Profiles s = Resolved (Page d g) →
  profiles s = JArr l →
  Forall2 (fun p c =>
             children (activate c) = (if is_active p then "Active" else "Set Active")
             ∧ assoc_variant (activate c) = (if is_active p then "secondary" else "outline")
             ∧ disabled (activate c) = false
             ∧ onClick (activate c) = Some (OnSetActive (key c))
             ∧ get_prop "id" p = Resolved (profile_id p)
             ∧ key c = profile_id p
             ∧ onClick (activate c) = Some (OnSetActive (profile_id p))
             ∧ OnSetActive (profile_id p) ∈ card_handlers c
             ∧ (∀ arg, OnSetActive arg ∈ card_handlers c → arg = profile_id p))
          l (cards_of g)
  ∧ length (filter (fun c => shows_active c = true) (cards_of g))
    = length (filter (fun p => is_active p = true) l)
  ∧ (length (filter (fun p => is_active p = true) l) ≤ 1 →
     length (filter (fun c => shows_active c = true) (cards_of g)) ≤ 1)%nat.
Proof.
  intros R P.
  pose proof (render_cards_Forall2 _ _ (render_page_cards s d g l R P)) as F.
  split; [|split].
  - eapply Forall2_impl; [exact F|].
    intros p c (id & name & u & Hi & ->)%render_card_inv.
    unfold profile_id. rewrite Hi. unfold card_handlers, button_handlers. cbn.
    destruct (is_active p); cbn; repeat split.
    all: try (apply list_elem_of_In; simpl; tauto).
    all: intros arg Hin%list_elem_of_In; simpl in Hin;
      repeat destruct Hin as [Hin|Hin]; try discriminate; try contradiction;
      congruence.
  - apply count_active_cards, F.
  - rewrite (count_active_cards _ _ F). auto.
Qed.

Lemma activate_buttons_witness :
  ∃ d g,
    Profiles readyState = Resolved (Page d g)
    ∧ Forall2 (fun p c =>
                 children (activate c) = (if is_active p then "Active" else "Set Active")
                 ∧ assoc_variant (activate c) = (if is_active p then "secondary" else "outline")
                 ∧ disabled (activate c) = false
                 ∧ onClick (activate c) = Some (OnSetActive (key c))
                 ∧ get_prop "id" p = Resolved (profile_id p)
                 ∧ key c = profile_id p
                 ∧ onClick (activate c) = Some (OnSetActive (profile_id p))
                 ∧ OnSetActive (profile_id p) ∈ card_handlers c
                 ∧ (∀ arg, OnSetActive arg ∈ card_handlers c → arg = profile_id p))
              [profileA; profileB] (cards_of g)
    ∧ length (filter (fun c => shows_active c = true) (cards_of g)) = 1%nat
    ∧ map profile_id [profileA; profileB] = [JNum 1; JNum 2].
Proof.
  eexists _, _. split; [reflexivity|].
  edestruct (activate_buttons readyState) as (H1 & H2 & _); [reflexivity | reflexivity |].
  split; [exact H1 | split; [exact H2 | reflexivity]].
Defined.

(** C7 as stated does not hold: in the scenario list the card of the active
    profile has the button "Active", and that button is enabled and starts an
    activation; and a list with two active profiles renders two "Active"
    cards. *)
Lemma active_button_not_disabled :
  (∃ d g c, Profiles readyState = Resolved (Page d g)
            ∧ c ∈ cards_of g
            ∧ key c = JNum 1
            ∧ children (activate c) = "Active"
            ∧ disabled (activate c) = false
            ∧ OnSetActive (JNum 1) ∈ card_handlers c)
  ∧ (∃ d g, Profiles twoActiveState = Resolved (Page d g)
            ∧ length (filter (fun c => shows_active c = true) (cards_of g)) = 2%nat).
Proof.
  split.
  - eexists _, _, _. split; [reflexivity|]. split; [apply list_elem_of_In; left; reflexivity|].
    repeat split. apply list_elem_of_In. left. reflexivity.
  - eexists _, _. split; reflexivity.
Qed.



(** ** [handleSetActiveProfile] when the request succeeds *)

Lemma has_id_truthy q n : get_prop "id" q = Resolved (JNum n) → truthy q = true.
Proof. destruct q; simpl; intros H; try discriminate; reflexivity. Qed.

Lemma strict_eq_num_true i n : strict_eq_num i n = true → i = JNum n.
Proof.
  destruct i; simpl; try discriminate. intros H%Z.eqb_eq. congruence.
Qed.

(** [find] returns an entry of the list, or [undefined]. *)
Lemma find_profile_elem profileId l p :
  find_profile profileId l = Resolved p → truthy p = true → p ∈ l.
Proof.
  induction l as [|q l IH]; simpl; intros H T.
  - injection H as <-. discriminate.
  - destruct (get_prop "id" q) as [i|]; [|discriminate].
    destruct (strict_eq_num i profileId).
    + injection H as <-. left.
    + right. auto.
Qed.

Lemma find_profile_miss profileId l :
  Forall (fun q => ∃ i, get_prop "id" q = Resolved i ∧ strict_eq_num i profileId = false) l →
  find_profile profileId l = Resolved JUndef.
Proof.
  induction 1 as [|q l (i & Hi & Hn) _ IH]; simpl; [reflexivity|].
  rewrite Hi, Hn. exact IH.
Qed.

(** In a list that renders, an identifier carried by one entry is found. *)
Lemma find_profile_hit profileId l cs p :
  Forall2 (fun p c => render_card p = Resolved c) l cs →
  p ∈ l → get_prop "id" p = Resolved (JNum profileId) →
  ∃ p', find_profile profileId l = Resolved p'
        ∧ p' ∈ l
        ∧ get_prop "id" p' = Resolved (JNum profileId)
        ∧ truthy p' = true.
Proof.
  induction 1 as [|q c l cs Hq _ IH]; intros Hin Hid.
  - inversion Hin.
  - simpl. apply render_card_inv in Hq as (i & _ & _ & Hi & _). rewrite Hi.
    destruct (strict_eq_num i profileId) eqn:E.
    + apply strict_eq_num_true in E as ->.
      exists q. repeat split; [left | exact Hi | exact (has_id_truthy _ _ Hi)].
    + apply elem_of_cons in Hin as [->|Hin].
      * rewrite Hid in Hi. injection Hi as <-. simpl in E.
        rewrite Z.eqb_refl in E. discriminate.
      * destruct (IH Hin Hid) as (p' & F & M & I' & T).
        exists p'. repeat split; [exact F | right; exact M | exact I' | exact T].
Qed.

(** The button of a rendered card passes the identifier of an entry of the
    list the page was rendered from. *)
Lemma rendered_button_id l cs card arg :
  Forall2 (fun p c => render_card p = Resolved c) l cs →
  card ∈ cs → onClick (activate card) = Some (OnSetActive arg) →
  ∃ p, p ∈ l ∧ get_prop "id" p = Resolved arg.
Proof.
  induction 1 as [|q c l cs Hq _ IH]; intros Hin Hc.
  - inversion Hin.
  - apply elem_of_cons in Hin as [->|Hin].
    + apply render_card_inv in Hq as (i & n & u & Hi & ->). simpl in Hc.
      injection Hc as <-. exists q. split; [left | exact Hi].
    + destruct (IH Hin Hc) as (p & M & I'). exists p. split; [right; exact M | exact I'].
Qed.

(** The successful path, up to what [find] returns. *)
Lemma setActive_ok_run o c profileId w resp data token p :
  fetch o 0 (setActiveRequest profileId) = Resolved resp →
  ok resp = true →
  payload resp = Some data →
  get_prop "token" data = Resolved token →
  profiles_find profileId (profiles c) = Resolved p →
  run o (handleSetActiveProfile c profileId) 0 w =
    (mkWorld (apply_update (SetIsLoading false)
                (apply_update (SetActiveProfileId (JNum profileId))
                   (apply_update (SetIsLoading true) (state w))))
             (if truthy p
              then <["activeProfile" := to_text (JSON_stringify p)]> (localStorage w)
              else localStorage w),
     [ Did (SetState (SetIsLoading true));
       Fetched (setActiveRequest profileId) (Resolved resp) ]
     ++ (if truthy token then [Did (SetClientSession token)] else [])
     ++ [ Did (SetState (SetActiveProfileId (JNum profileId))) ]
     ++ (if truthy p
         then [Did (StorageSetItem "activeProfile" (to_text (JSON_stringify p)))]
         else [])
     ++ [ Did (ToastSuccess "Active profile updated successfully");
          Did (RouterPush "/");
          Did RouterRefresh;
          Did (SetState (SetIsLoading false)) ]).
Proof.
  intros F K P G Hf. unfold handleSetActiveProfile, json_of.
  cbn [run emit]. rewrite F, K, P, G.
  destruct (truthy token); cbn [run emit perform state localStorage fst snd];
    rewrite Hf; destruct (truthy p); reflexivity.
Qed.

(** C9: whenever the activation started from a rendered card succeeds with a
    body that carries a token, the handler installs that token as the client
    session, sets the active-profile identifier to the requested one, caches
    the profile of that identifier under [activeProfile] in local storage,
    shows the success notification and navigates to "/", in this order. *)
Theorem setActive_success o c d g card profileId w resp data token :
  Profiles c = Resolved (Page d g) →
  card ∈ cards_of g →
  onClick (activate card) = Some (OnSetActive (JNum profileId)) →
  fetch o 0 (setActiveRequest profileId) = Resolved resp →
  ok resp = true →
  payload resp = Some data →
  get_prop "token" data = Resolved token →
  truthy token = true →
  ∃ l p,
    profiles c = JArr l ∧ p ∈ l ∧ get_prop "id" p = Resolved (JNum profileId)
    ∧ (run o (handleSetActiveProfile c profileId) 0 w).2 =
        [ Did (SetState (SetIsLoading true));
          Fetched (setActiveRequest profileId) (Resolved resp);
          Did (SetClientSession token);
          Did (SetState (SetActiveProfileId (JNum profileId)));
          Did (StorageSetItem "activeProfile" (to_text (JSON_stringify p)));
          Did (ToastSuccess "Active profile updated successfully");
          Did (RouterPush "/");
          Did RouterRefresh;
          Did (SetState (SetIsLoading false)) ]
    ∧ activeProfileId (state (run o (handleSetActiveProfile c profileId) 0 w).1) = JNum profileId
    ∧ localStorage (run o (handleSetActiveProfile c profileId) 0 w).1 !! "activeProfile"
      = Some (to_text (JSON_stringify p)).
Proof.
  intros R Hc Hb F K P G T.
  destruct (render_page_array c d g card R Hc) as [l Hl].
  pose proof (render_cards_Forall2 _ _ (render_page_cards c d g l R Hl)) as F2.
  destruct (rendered_button_id l _ card _ F2 Hc Hb) as (p0 & M0 & I0).
  destruct (find_profile_hit profileId l _ p0 F2 M0 I0) as (p & Hf & M & Hi & Tp).
  exists l, p. repeat split; try assumption.
  - rewrite (setActive_ok_run o c profileId w resp data token p F K P G)
      by (rewrite Hl; exact Hf).
    rewrite T, Tp. reflexivity.
  - rewrite (setActive_ok_run o c profileId w resp data token p F K P G)
      by (rewrite Hl; exact Hf).
    reflexivity.
  - rewrite (setActive_ok_run o c profileId w resp data token p F K P G)
      by (rewrite Hl; exact Hf).
    rewrite Tp. cbn [fst localStorage]. apply lookup_insert_eq.
Qed.

Lemma setActive_success_witness :
  ∃ l p,
    profiles readyState = JArr l ∧ p ∈ l ∧ get_prop "id" p = Resolved (JNum 2)
    ∧ (run (replying (Resolved tokenReply) (Resolved true))
           (handleSetActiveProfile readyState 2) 0 readyWorld).2 =
        [ Did (SetState (SetIsLoading true));
          Fetched (setActiveRequest 2) (Resolved tokenReply);
          Did (SetClientSession (JStr "t2"));
          Did (SetState (SetActiveProfileId (JNum 2)));
          Did (StorageSetItem "activeProfile" (to_text (JSON_stringify p)));
          Did (ToastSuccess "Active profile updated successfully");
          Did (RouterPush "/");
          Did RouterRefresh;
          Did (SetState (SetIsLoading false)) ]
    ∧ activeProfileId (state (run (replying (Resolved tokenReply) (Resolved true))
                                (handleSetActiveProfile readyState 2) 0 readyWorld).1) = JNum 2
    ∧ localStorage (run (replying (Resolved tokenReply) (Resolved true))
                      (handleSetActiveProfile readyState 2) 0 readyWorld).1 !! "activeProfile"
      = Some (to_text (JSON_stringify p)).
Proof.
  eapply (setActive_success (replying (Resolved tokenReply) (Resolved true)) readyState
            _ _ _ 2 readyWorld tokenReply (JObj [("token", JStr "t2")]) (JStr "t2")).
  - reflexivity.
  - apply list_elem_of_In. simpl. right. left. reflexivity.
  - reflexivity.
  - reflexivity.
  - reflexivity.
  - reflexivity.
  - reflexivity.
  - reflexivity.
Defined.

(** C10: on a successful activation the text stored under [activeProfile] is
    the serialisation of the entry that [find] returns from the list the
    handler closed over, unmodified, so its [isActive] is the one from before
    the switch; when no entry carries the requested identifier nothing is
    written to local storage, and the success notification and the navigation
    to "/" happen all the same. *)
Theorem setActive_caches_list_entry o c profileId w resp data token :
  fetch o 0 (setActiveRequest profileId) = Resolved resp →
  ok resp = true →
  payload resp = Some data →
  get_prop "token" data = Resolved token →
  (∀ p, profiles_find profileId (profiles c) = Resolved p → truthy p = true →
        (∃ l, profiles c = JArr l ∧ p ∈ l)
        ∧ Did (StorageSetItem "activeProfile" (to_text (JSON_stringify p)))
            ∈ (run o (handleSetActiveProfile c profileId) 0 w).2
        ∧ localStorage (run o (handleSetActiveProfile c profileId) 0 w).1 !! "activeProfile"
          = Some (to_text (JSON_stringify p)))
  ∧ (∀ l, profiles c = JArr l →
          Forall (fun q => ∃ i, get_prop "id" q = Resolved i
                                ∧ strict_eq_num i profileId = false) l →
          (∀ ev, ev ∈ (run o (handleSetActiveProfile c profileId) 0 w).2 → ¬ is_storage_write ev)
          ∧ localStorage (run o (handleSetActiveProfile c profileId) 0 w).1 = localStorage w
          ∧ activeProfileId (state (run o (handleSetActiveProfile c profileId) 0 w).1)
            = JNum profileId
          ∧ Did (ToastSuccess "Active profile updated successfully")
              ∈ (run o (handleSetActiveProfile c profileId) 0 w).2
          ∧ Did (RouterPush "/") ∈ (run o (handleSetActiveProfile c profileId) 0 w).2).
Proof.
  intros F K P G. split.
  - intros p Hf T.
    rewrite (setActive_ok_run o c profileId w resp data token p F K P G Hf). rewrite T.
    split; [|split].
    + unfold profiles_find in Hf. destruct (profiles c) as [| | | | |l|]; try discriminate.
      exists l. split; [reflexivity|]. exact (find_profile_elem profileId l p Hf T).
    + cbn [snd]. apply list_elem_of_In. destruct (truthy token); simpl; tauto.
    + cbn [fst localStorage]. apply lookup_insert_eq.
  - intros l Hl Hmiss.
    assert (profiles_find profileId (profiles c) = Resolved JUndef) as Hf
        by (rewrite Hl; exact (find_profile_miss profileId l Hmiss)).
    rewrite (setActive_ok_run o c profileId w resp data token JUndef F K P G Hf).
    cbn [truthy fst snd state localStorage].
    repeat split.
    + intros ev Hin%list_elem_of_In. destruct (truthy token); simpl in Hin.
      all: repeat destruct Hin as [<-|Hin]; simpl; tauto.
    + apply list_elem_of_In. destruct (truthy token); simpl; tauto.
    + apply list_elem_of_In. destruct (truthy token); simpl; tauto.
Qed.

Lemma setActive_caches_list_entry_witness :
  (* the entry cached for profile 2 is the one of the list, still inactive *)
  (profileB ∈ [profileA; profileB]
   ∧ get_prop "isActive" profileB = Resolved (JBool false)
   ∧ localStorage (run (replying (Resolved tokenReply) (Resolved true))
                     (handleSetActiveProfile readyState 2) 0 readyWorld).1 !! "activeProfile"
     = Some (to_text (JSON_stringify profileB)))
  (* profile 3 is not in the list: nothing is cached, success is reported *)
  ∧ (localStorage (run (replying (Resolved tokenReply) (Resolved true))
                     (handleSetActiveProfile readyState 3) 0 readyWorld).1 = ∅
     ∧ Did (ToastSuccess "Active profile updated successfully")
         ∈ (run (replying (Resolved tokenReply) (Resolved true))
              (handleSetActiveProfile readyState 3) 0 readyWorld).2).
Proof.
  split.
  - destruct (setActive_caches_list_entry (replying (Resolved tokenReply) (Resolved true))
                readyState 2 readyWorld tokenReply (JObj [("token", JStr "t2")]) (JStr "t2"))
      as [H _]; try reflexivity.
    destruct (H profileB) as (_ & _ & H3); try reflexivity.
    split; [apply list_elem_of_In; simpl; tauto|]. split; [reflexivity | exact H3].
  - destruct (setActive_caches_list_entry (replying (Resolved tokenReply) (Resolved true))
                readyState 3 readyWorld tokenReply (JObj [("token", JStr "t2")]) (JStr "t2"))
      as [_ H]; try reflexivity.
    destruct (H [profileA; profileB]) as (_ & H2 & _ & H4 & _); try reflexivity.
    + repeat constructor; eexists; (split; [reflexivity | reflexivity]).
    + split; [exact H2 | exact H4].
Defined.

(** * Further properties of the page *)

(** ** [fetchProfiles], every execution *)

(** Whatever the network answers, [fetchProfiles] issues exactly one request,
    the authorised GET of the list, ends with [loading] off, shows no
    notification, and touches no cell other than [profiles],
    [activeProfileId] and [loading], nor local storage. *)
Theorem fetchProfiles_one_request o n w :
  fetches (run o (fetchProfiles Ret) n w).2 = [listRequest (localStorage w !! "token")]
  ∧ loading (state (run o (fetchProfiles Ret) n w).1) = false
  ∧ toasts (run o (fetchProfiles Ret) n w).2 = []
  ∧ isDialogOpen (state (run o (fetchProfiles Ret) n w).1) = isDialogOpen (state w)
  ∧ user (state (run o (fetchProfiles Ret) n w).1) = user (state w)
  ∧ formData (state (run o (fetchProfiles Ret) n w).1) = formData (state w)
  ∧ error (state (run o (fetchProfiles Ret) n w).1) = error (state w)
  ∧ isLoading (state (run o (fetchProfiles Ret) n w).1) = isLoading (state w)
  ∧ localStorage (run o (fetchProfiles Ret) n w).1 = localStorage w.
Proof.
  unfold fetchProfiles. run_paths; repeat split.
Qed.

(** A 401 sends the visitor to the login route; the list and the identifier
    are left as they were and nothing is logged. *)
Theorem fetchProfiles_unauthorized o n w resp :
  fetch o n (listRequest (localStorage w !! "token")) = Resolved resp →
  status resp = 401 →
  (run o (fetchProfiles Ret) n w).2 =
    [ Fetched (listRequest (localStorage w !! "token")) (Resolved resp);
      Did (RouterPush "/login");
      Did (SetState (SetLoading false)) ]
  ∧ profiles (state (run o (fetchProfiles Ret) n w).1) = profiles (state w)
  ∧ activeProfileId (state (run o (fetchProfiles Ret) n w).1) = activeProfileId (state w).
Proof.
  intros F S. unfold fetchProfiles. cbn [run emit]. rewrite F, S. cbn. repeat split.
Qed.

Lemma fetchProfiles_unauthorized_witness :
  navigations (run (replying (Resolved unauthorized) (Resolved true))
                 (fetchProfiles Ret) 0 readyWorld).2 = ["/login"]
  ∧ profiles (state (run (replying (Resolved unauthorized) (Resolved true))
                       (fetchProfiles Ret) 0 readyWorld).1) = JArr [profileA; profileB].
Proof.
  destruct (fetchProfiles_unauthorized (replying (Resolved unauthorized) (Resolved true))
              0 readyWorld unauthorized) as (H1 & H2 & _); try reflexivity.
  split; [rewrite H1; reflexivity | exact H2].
Defined.

Lemma fetchProfiles_thrown_keeps_state_witness :
  profiles (state (run (replying offline (Resolved true)) (fetchProfiles Ret) 0 readyWorld).1)
    = JArr [profileA; profileB]
  ∧ profiles (state (run (replying (Resolved gatewayError) (Resolved true))
                       (fetchProfiles Ret) 0 readyWorld).1)
    = JArr [profileA; profileB].
Proof.
  split.
  - refine (proj1 (fetchProfiles_thrown_keeps_state (replying offline (Resolved true)) readyWorld _)).
    left. eexists. reflexivity.
  - refine (proj1 (fetchProfiles_thrown_keeps_state
                     (replying (Resolved gatewayError) (Resolved true)) readyWorld _)).
    right. exists gatewayError. split; [reflexivity|]. split; [discriminate | reflexivity].
Defined.

(** A body that is an array replaces the list with exactly that array,
    whatever was shown before; an array has no [activeProfileId], so the
    identifier becomes [undefined]. *)
Theorem fetchProfiles_array_body o n w resp l :
  fetch o n (listRequest (localStorage w !! "token")) = Resolved resp →
  status resp ≠ 401 →
  payload resp = Some (JArr l) →
  profiles (state (run o (fetchProfiles Ret) n w).1) = JArr l
  ∧ activeProfileId (state (run o (fetchProfiles Ret) n w).1) = JUndef
  ∧ logs (run o (fetchProfiles Ret) n w).2 = [].
Proof.
  intros F S P. unfold fetchProfiles, json_of. cbn [run emit]. rewrite F.
  apply Z.eqb_neq in S. rewrite S, P. cbn. repeat split.
Qed.

Lemma fetchProfiles_array_body_witness :
  profiles (state (run (replying (Resolved listReply) (Resolved true))
                     (fetchProfiles Ret) 0 (mkWorld initialState ∅)).1) = JArr [profileA; profileB]
  ∧ activeProfileId (state (run (replying (Resolved listReply) (Resolved true))
                              (fetchProfiles Ret) 0 (mkWorld initialState ∅)).1) = JUndef.
Proof.
  destruct (fetchProfiles_array_body (replying (Resolved listReply) (Resolved true))
              0 (mkWorld initialState ∅) listReply [profileA; profileB]) as (H1 & H2 & _);
    try reflexivity.
  - discriminate.
  - split; [exact H1 | exact H2].
Defined.

Lemma render_dialog_total s : ∃ d, render_dialog s = Resolved d.
Proof.
  unfold render_dialog, user_id. destruct (user s); simpl; eauto.
Qed.

(** A body that is the JSON value [null] is stored in [profiles] before the
    read of its [activeProfileId] throws: the list is lost, the identifier is
    kept, the error is logged, and the page then shows an empty grid. *)
Theorem fetchProfiles_null_body o n w resp :
  fetch o n (listRequest (localStorage w !! "token")) = Resolved resp →
  status resp ≠ 401 →
  payload resp = Some JNull →
  profiles (state (run o (fetchProfiles Ret) n w).1) = JNull
  ∧ activeProfileId (state (run o (fetchProfiles Ret) n w).1) = activeProfileId (state w)
  ∧ logs (run o (fetchProfiles Ret) n w).2 = [("Error fetching profiles:", TypeError)]
  ∧ ∃ d, Profiles (state (run o (fetchProfiles Ret) n w).1) = Resolved (Page d (Bare JNull)).
Proof.
  intros F S P. unfold fetchProfiles, json_of. cbn [run emit]. rewrite F.
  apply Z.eqb_neq in S. rewrite S, P. cbn [get_prop run emit perform fst snd state].
  split; [reflexivity|]. split; [reflexivity|]. split; [reflexivity|].
  unfold Profiles. cbn [loading apply_update profiles].
  match goal with |- context [render_dialog ?s] => destruct (render_dialog_total s) as [d ->] end.
  exists d. reflexivity.
Qed.

Lemma fetchProfiles_null_body_witness :
  profiles (state (run (replying (Resolved (mkResponse 200 (Some JNull))) (Resolved true))
                     (fetchProfiles Ret) 0 readyWorld).1) = JNull
  ∧ activeProfileId (state (run (replying (Resolved (mkResponse 200 (Some JNull))) (Resolved true))
                              (fetchProfiles Ret) 0 readyWorld).1) = JNum 1.
Proof.
  destruct (fetchProfiles_null_body (replying (Resolved (mkResponse 200 (Some JNull))) (Resolved true))
              0 readyWorld (mkResponse 200 (Some JNull))) as (H1 & H2 & _); try reflexivity.
  - discriminate.
  - split; [exact H1 | exact H2].
Defined.

(** ** [handleInputChange] *)

Lemma assoc_obj_set_eq k v kv : assoc k (obj_set k v kv) = v.
Proof.
  induction kv as [|[k' v'] kv IH]; simpl.
  - rewrite String.eqb_refl. reflexivity.
  - destruct (String.eqb k k') eqn:E; simpl.
    + rewrite String.eqb_refl. reflexivity.
    + rewrite E. exact IH.
Qed.

Lemma assoc_obj_set_ne k k' v kv : k' ≠ k → assoc k' (obj_set k v kv) = assoc k' kv.
Proof.
  intros N. induction kv as [|[k0 v0] kv IH]; simpl.
  - apply String.eqb_neq in N. rewrite N. reflexivity.
  - destruct (String.eqb k k0) eqn:E; simpl.
    + apply String.eqb_eq in E as <-. apply String.eqb_neq in N. rewrite N. reflexivity.
    + rewrite IH. reflexivity.
Qed.

Lemma obj_set_keys k v kv : k ∈ kv.*1 → (obj_set k v kv).*1 = kv.*1.
Proof.
  induction kv as [|[k0 v0] kv IH]; simpl; intros H.
  - inversion H.
  - destruct (String.eqb k k0) eqn:E; simpl.
    + apply String.eqb_eq in E as <-. reflexivity.
    + f_equal. apply IH. apply elem_of_cons in H as [->|H]; [|exact H].
      rewrite String.eqb_refl in E. discriminate.
Qed.

(** Typing into an input stores the text under the input's name, so that
    the input shows it; every other staged field reads as before, a name the
    form already has adds no property, and no other cell changes. *)
Theorem handleInputChange_sets_field (name value : string) (extra : list (string * string))
    (prev : State) :
  assoc name (formData (handleInputChange name value prev)) = JStr value
  ∧ input_value (text_input name extra (handleInputChange name value prev)) = JStr value
  ∧ (∀ other, other ≠ name →
       assoc other (formData (handleInputChange name value prev)) = assoc other (formData prev))
  ∧ (name ∈ (formData prev).*1 →
       (formData (handleInputChange name value prev)).*1 = (formData prev).*1)
  ∧ profiles (handleInputChange name value prev) = profiles prev
  ∧ isDialogOpen (handleInputChange name value prev) = isDialogOpen prev
  ∧ error (handleInputChange name value prev) = error prev
  ∧ isLoading (handleInputChange name value prev) = isLoading prev.
Proof.
  unfold handleInputChange, text_input. cbn [apply_update formData input_value].
  split; [apply assoc_obj_set_eq|]. split; [apply assoc_obj_set_eq|].
  split; [intros other N; apply assoc_obj_set_ne, N|].
  split; [apply obj_set_keys|]. repeat split.
Qed.

Lemma handleInputChange_sets_field_witness :
  assoc "iptvUrl" (formData (handleInputChange "iptvUsername" "dave" dialogState))
    = JStr "http://tv.example.org"
  ∧ (formData (handleInputChange "iptvUsername" "dave" dialogState)).*1
    = ["name"; "iptvUrl"; "iptvUsername"; "iptvPassword"].
Proof.
  destruct (handleInputChange_sets_field "iptvUsername" "dave" [] dialogState)
    as (_ & _ & H3 & H4 & _).
  split.
  - rewrite (H3 "iptvUrl"); [reflexivity | discriminate].
  - rewrite H4; [reflexivity|]. apply list_elem_of_In. simpl. tauto.
Defined.

(** What the user typed into the four inputs of an empty form is what
    [handleCreateProfile] submits: the verification is called once, with the
    typed URL, user name and password, and the body prepared for the POST is
    the JSON text of the four typed values. *)
Theorem typed_values_are_submitted (s : State) (nm u a p : string) :
  formData s = emptyForm →
  let s' := handleInputChange "iptvPassword" p
              (handleInputChange "iptvUsername" a
                 (handleInputChange "iptvUrl" u
                    (handleInputChange "name" nm s))) in
  formData s' = [("name", JStr nm); ("iptvUrl", JStr u);
                 ("iptvUsername", JStr a); ("iptvPassword", JStr p)]
  ∧ (∀ o n w, verifications (run o (handleCreateProfile s') n w).2 = [(JStr u, JStr a, JStr p)])
  ∧ body (createRequest (formData s'))
    = JSON_stringify (JObj [("name", JStr nm); ("iptvUrl", JStr u);
                            ("iptvUsername", JStr a); ("iptvPassword", JStr p)]).
Proof.
  intros E s'.
  assert (formData s' = [("name", JStr nm); ("iptvUrl", JStr u);
                         ("iptvUsername", JStr a); ("iptvPassword", JStr p)]) as F.
  { subst s'. unfold handleInputChange. cbn [apply_update formData]. rewrite E. reflexivity. }
  split; [exact F|]. split.
  - intros o n w. unfold handleCreateProfile, fetchProfiles. rewrite F.
    cbn [assoc String.eqb Ascii.eqb Bool.eqb].
    run_paths; reflexivity.
  - rewrite F. reflexivity.
Qed.

Lemma typed_values_are_submitted_witness :
  verifications
    (run (replying offline (Resolved false))
       (handleCreateProfile
          (handleInputChange "iptvPassword" "secret"
             (handleInputChange "iptvUsername" "carol"
                (handleInputChange "iptvUrl" "http://tv.example.org"
                   (handleInputChange "name" "C" readyState))))) 0 readyWorld).2
  = [(JStr "http://tv.example.org", JStr "carol", JStr "secret")].
Proof.
  destruct (typed_values_are_submitted readyState "C" "http://tv.example.org" "carol" "secret")
    as (_ & H & _); [reflexivity|].
  apply H.
Defined.

(** ** Rendering a list of profile objects *)

Lemma render_cards_objects l :
  Forall (fun p => is_object p = true) l →
  ∃ cs, render_cards l = Resolved cs
        ∧ length cs = length l
        ∧ map key cs = map profile_id l.
Proof.
  induction 1 as [|p l Hp _ (cs & Hcs & Hlen & Hkeys)]; simpl.
  - exists []. repeat split.
  - destruct p as [| | | | | |kv]; try discriminate. unfold render_card. simpl.
    rewrite Hcs. eexists. split; [reflexivity|]. simpl. rewrite Hlen, Hkeys.
    split; reflexivity.
Qed.

Lemma Profiles_objects s l :
  loading s = false → profiles s = JArr l →
  Forall (fun p => is_object p = true) l →
  ∃ d cs, Profiles s = Resolved (Page d (Cards cs))
          ∧ dialog_open d = isDialogOpen s
          ∧ length cs = length l
          ∧ map key cs = map profile_id l.
Proof.
  intros L P O. destruct (render_cards_objects l O) as (cs & Hcs & Hlen & Hkeys).
  unfold Profiles, render_grid, render_dialog. rewrite L, P.
  destruct (user_id s) as [uid|] eqn:U.
  - cbn [truthy]. rewrite Hcs. eexists _, cs. split; [reflexivity|]. repeat split; assumption.
  - unfold user_id in U. destruct (user s); discriminate.
Qed.

(** ** [handleCreateProfile], path by path *)

(** Valid credentials and an accepted POST: the success notification is the
    only one shown, the staged form is emptied and the dialog closed, the list
    is requested again after the POST, and the route refresh and the lowering
    of [isLoading] come last. *)
Theorem create_success o c w resp :
  verifyIPTVCredentials o 0 (assoc "iptvUrl" (formData c)) (assoc "iptvUsername" (formData c))
                        (assoc "iptvPassword" (formData c)) = Resolved true →
  fetch o 1 (createRequest (formData c)) = Resolved resp →
  ok resp = true →
  fetches (run o (handleCreateProfile c) 0 w).2
    = [createRequest (formData c); listRequest (localStorage w !! "token")]
  ∧ toasts (run o (handleCreateProfile c) 0 w).2 = [ToastSuccess "Profile created successfully"]
  ∧ formData (state (run o (handleCreateProfile c) 0 w).1) = emptyForm
  ∧ isDialogOpen (state (run o (handleCreateProfile c) 0 w).1) = false
  ∧ loading (state (run o (handleCreateProfile c) 0 w).1) = false
  ∧ take 2 (reverse (run o (handleCreateProfile c) 0 w).2)
    = [Did (SetState (SetIsLoading false)); Did RouterRefresh].
Proof.
  intros V F K. unfold handleCreateProfile, fetchProfiles.
  cbn [run emit]. rewrite V. cbn [negb run emit]. rewrite F, K.
  run_paths; repeat split.
Qed.

Lemma create_success_witness :
  fetches (run (scripted [offline; Resolved created; Resolved listReply] (Resolved true))
             (handleCreateProfile dialogState) 0 dialogWorld).2
    = [createRequest filledForm; listRequest None]
  ∧ isDialogOpen (state (run (scripted [offline; Resolved created; Resolved listReply] (Resolved true))
                           (handleCreateProfile dialogState) 0 dialogWorld).1) = false.
Proof.
  destruct (create_success (scripted [offline; Resolved created; Resolved listReply] (Resolved true))
              dialogState dialogWorld created) as (H1 & _ & _ & H4 & _); try reflexivity.
  split; [exact H1 | exact H4].
Defined.

(** Valid credentials and a POST answered outside 200..299 with a JSON body:
    the notification shows the body's [message], or the generic text when it
    has none; the dialog stays as it is with the staged form, and the list is
    neither requested again nor changed. *)
Theorem create_rejected_by_server o c w resp data m :
  verifyIPTVCredentials o 0 (assoc "iptvUrl" (formData c)) (assoc "iptvUsername" (formData c))
                        (assoc "iptvPassword" (formData c)) = Resolved true →
  fetch o 1 (createRequest (formData c)) = Resolved resp →
  ok resp = false →
  payload resp = Some data →
  get_prop "message" data = Resolved m →
  toasts (run o (handleCreateProfile c) 0 w).2
    = [ToastError (if truthy m then m else JStr "Failed to create profile")]
  ∧ fetches (run o (handleCreateProfile c) 0 w).2 = [createRequest (formData c)]
  ∧ logs (run o (handleCreateProfile c) 0 w).2 = []
  ∧ formData (state (run o (handleCreateProfile c) 0 w).1) = formData (state w)
  ∧ isDialogOpen (state (run o (handleCreateProfile c) 0 w).1) = isDialogOpen (state w)
  ∧ profiles (state (run o (handleCreateProfile c) 0 w).1) = profiles (state w).
Proof.
  intros V F K P G. unfold handleCreateProfile, json_of.
  cbn [run emit]. rewrite V. cbn [negb run emit]. rewrite F, K, P, G.
  cbn. repeat split.
Qed.

Lemma create_rejected_by_server_witness :
  toasts (run (scripted [offline; Resolved rejectedCreate] (Resolved true))
            (handleCreateProfile dialogState) 0 dialogWorld).2
    = [ToastError (JStr "Name already used")]
  ∧ toasts (run (scripted [offline; Resolved (mkResponse 500 (Some (JObj [])))] (Resolved true))
              (handleCreateProfile dialogState) 0 dialogWorld).2
    = [ToastError (JStr "Failed to create profile")].
Proof.
  split.
  - refine (proj1 (create_rejected_by_server
                     (scripted [offline; Resolved rejectedCreate] (Resolved true))
                     dialogState dialogWorld rejectedCreate
                     (JObj [("message", JStr "Name already used")]) (JStr "Name already used")
                     _ _ _ _ _)); reflexivity.
  - refine (proj1 (create_rejected_by_server
                     (scripted [offline; Resolved (mkResponse 500 (Some (JObj [])))] (Resolved true))
                     dialogState dialogWorld (mkResponse 500 (Some (JObj [])))
                     (JObj []) JUndef _ _ _ _ _)); reflexivity.
Defined.

(** When the verification or the POST throws, or the body of a refused POST
    is not JSON, the error is logged once under the handler's label and the
    generic notification is shown; form, dialog and list are untouched. *)
Theorem create_thrown o c w :
  (∃ e, verifyIPTVCredentials o 0 (assoc "iptvUrl" (formData c))
          (assoc "iptvUsername" (formData c)) (assoc "iptvPassword" (formData c)) = Rejected e)
  ∨ (verifyIPTVCredentials o 0 (assoc "iptvUrl" (formData c))
       (assoc "iptvUsername" (formData c)) (assoc "iptvPassword" (formData c)) = Resolved true
     ∧ ((∃ e, fetch o 1 (createRequest (formData c)) = Rejected e)
        ∨ (∃ resp, fetch o 1 (createRequest (formData c)) = Resolved resp
                   ∧ ok resp = false ∧ payload resp = None))) →
  toasts (run o (handleCreateProfile c) 0 w).2 = [ToastError (JStr "Failed to create profile")]
  ∧ (∃ e, logs (run o (handleCreateProfile c) 0 w).2 = [("Error creating profile:", e)])
  ∧ formData (state (run o (handleCreateProfile c) 0 w).1) = formData (state w)
  ∧ isDialogOpen (state (run o (handleCreateProfile c) 0 w).1) = isDialogOpen (state w)
  ∧ profiles (state (run o (handleCreateProfile c) 0 w).1) = profiles (state w).
Proof.
  unfold handleCreateProfile, json_of. cbn [run emit].
  intros [[e V] | (V & [[e F] | (resp & F & K & P)])]; rewrite V; cbn [negb run emit].
  - cbn. repeat split. eexists. reflexivity.
  - rewrite F. cbn. repeat split. eexists. reflexivity.
  - rewrite F, K, P. cbn. repeat split. eexists. reflexivity.
Qed.

Lemma create_thrown_witness :
  toasts (run (replying offline (Rejected "timeout")) (handleCreateProfile dialogState) 0 dialogWorld).2
    = [ToastError (JStr "Failed to create profile")]
  ∧ toasts (run (replying (Resolved gatewayError) (Resolved true))
              (handleCreateProfile dialogState) 0 dialogWorld).2
    = [ToastError (JStr "Failed to create profile")].
Proof.
  split.
  - refine (proj1 (create_thrown (replying offline (Rejected "timeout")) dialogState dialogWorld _)).
    left. eexists. reflexivity.
  - refine (proj1 (create_thrown (replying (Resolved gatewayError) (Resolved true))
                     dialogState dialogWorld _)).
    right. split; [reflexivity|]. right. exists gatewayError. repeat split.
Defined.

(** Every execution of [handleCreateProfile], whatever the replies: exactly
    one verification and exactly one notification; no request, or the POST,
    or the POST followed by the GET of the list; and at the end [error] is
    cleared and [isLoading] is off. *)
Theorem create_every_execution o c w :
  length (verifications (run o (handleCreateProfile c) 0 w).2) = 1%nat
  ∧ length (toasts (run o (handleCreateProfile c) 0 w).2) = 1%nat
  ∧ (fetches (run o (handleCreateProfile c) 0 w).2 = []
     ∨ fetches (run o (handleCreateProfile c) 0 w).2 = [createRequest (formData c)]
     ∨ fetches (run o (handleCreateProfile c) 0 w).2
       = [createRequest (formData c); listRequest (localStorage w !! "token")])
  ∧ error (state (run o (handleCreateProfile c) 0 w).1) = JNull
  ∧ user (state (run o (handleCreateProfile c) 0 w).1) = user (state w)
  ∧ localStorage (run o (handleCreateProfile c) 0 w).1 = localStorage w.
Proof.
  unfold handleCreateProfile, fetchProfiles.
  run_paths; repeat split; auto.
Qed.

(** ** [handleSetActiveProfile], further paths *)

(** Every execution of [handleSetActiveProfile] issues exactly one request,
    the activation POST: the list is never requested again, and [profiles],
    [loading], the dialog flag, the form, [user] and [error] are as before, so
    the cards keep the flags they had. *)
Theorem setActive_every_execution o c profileId w :
  fetches (run o (handleSetActiveProfile c profileId) 0 w).2 = [setActiveRequest profileId]
  ∧ profiles (state (run o (handleSetActiveProfile c profileId) 0 w).1) = profiles (state w)
  ∧ loading (state (run o (handleSetActiveProfile c profileId) 0 w).1) = loading (state w)
  ∧ isDialogOpen (state (run o (handleSetActiveProfile c profileId) 0 w).1) = isDialogOpen (state w)
  ∧ formData (state (run o (handleSetActiveProfile c profileId) 0 w).1) = formData (state w)
  ∧ user (state (run o (handleSetActiveProfile c profileId) 0 w).1) = user (state w)
  ∧ error (state (run o (handleSetActiveProfile c profileId) 0 w).1) = error (state w)
  ∧ (length (toasts (run o (handleSetActiveProfile c profileId) 0 w).2) ≤ 1)%nat.
Proof.
  unfold handleSetActiveProfile.
  run_paths; repeat split; auto.
Qed.

(** A successful reply without a token (absent, [null] or empty) installs no
    session; the identifier is still updated, the found profile cached, the
    success shown and the visitor sent to "/". *)
Theorem setActive_without_token o c profileId w resp data token p :
  fetch o 0 (setActiveRequest profileId) = Resolved resp →
  ok resp = true →
  payload resp = Some data →
  get_prop "token" data = Resolved token →
  truthy token = false →
  profiles_find profileId (profiles c) = Resolved p →
  sessions (run o (handleSetActiveProfile c profileId) 0 w).2 = []
  ∧ activeProfileId (state (run o (handleSetActiveProfile c profileId) 0 w).1) = JNum profileId
  ∧ toasts (run o (handleSetActiveProfile c profileId) 0 w).2
    = [ToastSuccess "Active profile updated successfully"]
  ∧ navigations (run o (handleSetActiveProfile c profileId) 0 w).2 = ["/"].
Proof.
  intros F K P G T Hf.
  rewrite (setActive_ok_run o c profileId w resp data token p F K P G Hf), T.
  destruct (truthy p); repeat split.
Qed.

Lemma setActive_without_token_witness :
  sessions (run (replying (Resolved deleted) (Resolved true))
              (handleSetActiveProfile readyState 2) 0 readyWorld).2 = []
  ∧ navigations (run (replying (Resolved deleted) (Resolved true))
                   (handleSetActiveProfile readyState 2) 0 readyWorld).2 = ["/"].
Proof.
  destruct (setActive_without_token (replying (Resolved deleted) (Resolved true))
              readyState 2 readyWorld deleted (JObj [("success", JBool true)]) JUndef profileB)
    as (H1 & _ & _ & H4); try reflexivity.
  split; [exact H1 | exact H4].
Defined.

(** A 2xx reply whose body cannot be read (not JSON, or the JSON value
    [null]) is reported as a failure although the server accepted the
    activation: the error is logged, the generic notification shown, and
    neither the session, nor the identifier, nor local storage is written,
    nor does the page navigate. *)
Theorem setActive_unreadable_reply o c profileId w resp :
  fetch o 0 (setActiveRequest profileId) = Resolved resp →
  ok resp = true →
  payload resp = None ∨ payload resp = Some JNull →
  toasts (run o (handleSetActiveProfile c profileId) 0 w).2
    = [ToastError (JStr "Failed to set active profile")]
  ∧ (∃ e, logs (run o (handleSetActiveProfile c profileId) 0 w).2
          = [("Error setting active profile:", e)])
  ∧ sessions (run o (handleSetActiveProfile c profileId) 0 w).2 = []
  ∧ navigations (run o (handleSetActiveProfile c profileId) 0 w).2 = []
  ∧ activeProfileId (state (run o (handleSetActiveProfile c profileId) 0 w).1)
    = activeProfileId (state w)
  ∧ localStorage (run o (handleSetActiveProfile c profileId) 0 w).1 = localStorage w.
Proof.
  intros F K [P|P]; unfold handleSetActiveProfile, json_of; cbn [run emit]; rewrite F, K, P.
  all: cbn; repeat split; eexists; reflexivity.
Qed.

Lemma setActive_unreadable_reply_witness :
  toasts (run (replying (Resolved (mkResponse 204 None)) (Resolved true))
            (handleSetActiveProfile readyState 2) 0 readyWorld).2
    = [ToastError (JStr "Failed to set active profile")]
  ∧ activeProfileId (state (run (replying (Resolved (mkResponse 204 None)) (Resolved true))
                              (handleSetActiveProfile readyState 2) 0 readyWorld).1) = JNum 1.
Proof.
  destruct (setActive_unreadable_reply (replying (Resolved (mkResponse 204 None)) (Resolved true))
              readyState 2 readyWorld (mkResponse 204 None))
    as (H1 & _ & _ & _ & H5 & _); try reflexivity.
  - left. reflexivity.
  - split; [exact H1 | exact H5].
Defined.

Lemma setActive_thrown_is_reported_witness :
  (run (replying offline (Resolved true)) (handleSetActiveProfile readyState 2) 0 readyWorld).2 =
    [ Did (SetState (SetIsLoading true));
      Fetched (setActiveRequest 2) offline;
      Did (ConsoleError "Error setting active profile:" "Failed to fetch");
      Did (ToastError (JStr "Failed to set active profile"));
      Did (SetState (SetIsLoading false)) ].
Proof.
  apply (setActive_thrown_is_reported (replying offline (Resolved true)) readyState 2 readyWorld
           "Failed to fetch").
  reflexivity.
Defined.

(** ** [deleteProfile], further paths *)

Lemma deleteProfile_refetch_witness :
  (∃ reply rest,
     (run (scripted [Resolved deleted; Resolved listReply] (Resolved true))
        (deleteProfile 2) 0 readyWorld).2
     = Fetched (deleteRequest 2) (Resolved deleted) :: Fetched (listRequest None) reply :: rest)
  ∧ (∀ ev, ev ∈ (run (replying (Resolved serverError) (Resolved true))
                   (deleteProfile 2) 0 readyWorld).2 →
           is_fetch ev → ev = Fetched (deleteRequest 2) (Resolved serverError)).
Proof.
  split.
  - refine (proj1 (deleteProfile_refetch (scripted [Resolved deleted; Resolved listReply] (Resolved true))
                     2 readyWorld deleted _) _); reflexivity.
  - exact (proj2 (deleteProfile_refetch (replying (Resolved serverError) (Resolved true))
                    2 readyWorld serverError eq_refl) eq_refl).
Defined.

(** When the DELETE throws, or is refused with a body that is not JSON or is
    [null], the error is logged and [error] receives the generic text; the
    list is not requested again. *)
Theorem deleteProfile_thrown o profileId w :
  (∃ e, fetch o 0 (deleteRequest profileId) = Rejected e)
  ∨ (∃ resp, fetch o 0 (deleteRequest profileId) = Resolved resp ∧ ok resp = false
             ∧ (payload resp = None ∨ payload resp = Some JNull)) →
  error (state (run o (deleteProfile profileId) 0 w).1) = JStr "Failed to delete profile"
  ∧ (∃ e, logs (run o (deleteProfile profileId) 0 w).2 = [("Error deleting profile:", e)])
  ∧ fetches (run o (deleteProfile profileId) 0 w).2 = [deleteRequest profileId]
  ∧ profiles (state (run o (deleteProfile profileId) 0 w).1) = profiles (state w).
Proof.
  unfold deleteProfile, json_of. cbn [run emit].
  intros [[e F] | (resp & F & K & [P|P])]; rewrite F; [|rewrite K, P..].
  all: cbn; repeat split; eexists; reflexivity.
Qed.

Lemma deleteProfile_thrown_witness :
  error (state (run (replying offline (Resolved true)) (deleteProfile 2) 0 readyWorld).1)
    = JStr "Failed to delete profile"
  ∧ error (state (run (replying (Resolved gatewayError) (Resolved true))
                    (deleteProfile 2) 0 readyWorld).1)
    = JStr "Failed to delete profile".
Proof.
  split.
  - refine (proj1 (deleteProfile_thrown (replying offline (Resolved true)) 2 readyWorld _)).
    left. eexists. reflexivity.
  - refine (proj1 (deleteProfile_thrown (replying (Resolved gatewayError) (Resolved true))
                     2 readyWorld _)).
    right. exists gatewayError. repeat split. left. reflexivity.
Defined.

(** Every execution of [deleteProfile]: the DELETE comes first and at most
    the GET of the list follows; no notification is ever shown; [isLoading],
    the dialog flag, the form, [user] and local storage are as before. *)
Theorem deleteProfile_every_execution o profileId w :
  (fetches (run o (deleteProfile profileId) 0 w).2 = [deleteRequest profileId]
   ∨ fetches (run o (deleteProfile profileId) 0 w).2
     = [deleteRequest profileId; listRequest (localStorage w !! "token")])
  ∧ toasts (run o (deleteProfile profileId) 0 w).2 = []
  ∧ isLoading (state (run o (deleteProfile profileId) 0 w).1) = isLoading (state w)
  ∧ isDialogOpen (state (run o (deleteProfile profileId) 0 w).1) = isDialogOpen (state w)
  ∧ formData (state (run o (deleteProfile profileId) 0 w).1) = formData (state w)
  ∧ user (state (run o (deleteProfile profileId) 0 w).1) = user (state w)
  ∧ localStorage (run o (deleteProfile profileId) 0 w).1 = localStorage w.
Proof.
  unfold deleteProfile, fetchProfiles.
  run_paths; repeat split; auto.
Qed.

(** ** The page, list by list *)

Lemma render_cards_rejects l e : render_cards l = Rejected e → e = TypeError.
Proof.
  induction l as [|p l IH]; simpl; [discriminate|].
  destruct (render_card p) as [c|e'] eqn:Hc.
  - destruct (render_cards l) as [cs|e'']; [discriminate|].
    intros H. injection H as <-. apply IH. reflexivity.
  - intros H. injection H as <-. unfold render_card in Hc.
    repeat case_match; congruence.
Qed.

Lemma render_cards_nullish l :
  JNull ∈ l ∨ JUndef ∈ l → render_cards l = Rejected TypeError.
Proof.
  induction l as [|p l IH]; intros H.
  - destruct H as [H|H]; inversion H.
  - simpl. destruct (render_card p) as [c|e] eqn:Hc.
    + rewrite IH; [reflexivity|].
      destruct H as [H|H]; apply elem_of_cons in H as [<-|H]; try discriminate; auto.
    + unfold render_card in Hc. repeat case_match; congruence.
Qed.

(** A list whose entries are all objects never makes the page throw: once
    [loading] is off it shows one card per entry, in order, keyed by the
    entry's [id], with the check mark and the "Active" label exactly on the
    entries whose [isActive] holds; the dialog is open when [isDialogOpen]
    is. *)
Theorem Profiles_renders_objects s l :
  loading s = false →
  profiles s = JArr l →
  Forall (fun p => is_object p = true) l →
  ∃ d cs,
    Profiles s = Resolved (Page d (Cards cs))
    ∧ dialog_open d = isDialogOpen s
    ∧ Forall2 (fun p c => key c = profile_id p
                          ∧ check_mark c = is_active p
                          ∧ shows_active c = is_active p
                          ∧ title c = match get_prop "name" p with
                                      | Resolved x => x | Rejected _ => JUndef end)
              l cs.
Proof.
  intros L P O.
  destruct (Profiles_objects s l L P O) as (d & cs & R & D & _ & _).
  exists d, cs. split; [exact R|]. split; [exact D|].
  pose proof (render_cards_Forall2 _ _ (render_page_cards s d (Cards cs) l R P)) as F.
  eapply Forall2_impl; [exact F|].
  intros p c Hc. pose proof (shows_active_iff p c Hc) as Hs.
  unfold render_card, profile_id, is_active in *.
  destruct (get_prop "id" p); [|discriminate].
  destruct (get_prop "isActive" p); [|discriminate].
  destruct (get_prop "name" p); [|discriminate].
  destruct (get_prop "iptvUrl" p); [|discriminate].
  injection Hc as <-. simpl. repeat split. exact Hs.
Qed.

Lemma Profiles_renders_objects_witness :
  ∃ d cs,
    Profiles readyState = Resolved (Page d (Cards cs))
    ∧ dialog_open d = false
    ∧ Forall2 (fun p c => key c = profile_id p
                          ∧ check_mark c = is_active p
                          ∧ shows_active c = is_active p
                          ∧ title c = match get_prop "name" p with
                                      | Resolved x => x | Rejected _ => JUndef end)
              [profileA; profileB] cs.
Proof.
  apply (Profiles_renders_objects readyState [profileA; profileB]); try reflexivity.
  repeat constructor.
Defined.

(** One [null] or [undefined] entry anywhere in the list makes the whole
    page throw, whatever the other entries are. *)
Theorem Profiles_nullish_entry_throws s l :
  loading s = false →
  profiles s = JArr l →
  JNull ∈ l ∨ JUndef ∈ l →
  Profiles s = Rejected TypeError.
Proof.
  intros L P H. unfold Profiles, render_grid. rewrite L, P.
  destruct (render_dialog_total s) as [d ->].
  cbn [truthy]. rewrite (render_cards_nullish l H). reflexivity.
Qed.

Lemma Profiles_nullish_entry_throws_witness :
  Profiles (apply_update (SetProfiles (JArr [profileA; JNull; profileB])) readyState)
  = Rejected TypeError.
Proof.
  apply (Profiles_nullish_entry_throws _ [profileA; JNull; profileB]); try reflexivity.
  left. apply list_elem_of_In. simpl. tauto.
Defined.

(** On a rendered page, every control that starts a deletion carries the
    identifier of an entry of the list that is not active, and every control
    that starts an activation carries the identifier of an entry of the
    list: the page offers no action on a profile it does not show. *)
Theorem page_actions_from_list s d g l :
  Profiles s = Resolved (Page d g) →
  profiles s = JArr l →
  (∀ arg, OnDelete arg ∈ handlers (Page d g) →
     ∃ p, p ∈ l ∧ get_prop "id" p = Resolved arg ∧ is_active p = false)
  ∧ (∀ arg, OnSetActive arg ∈ handlers (Page d g) →
     ∃ p, p ∈ l ∧ get_prop "id" p = Resolved arg).
Proof.
  intros R P.
  pose proof (render_cards_Forall2 _ _ (render_page_cards s d g l R P)) as F.
  assert (render_dialog s = Resolved d) as D.
  { unfold Profiles in R. destruct (loading s); [discriminate|].
    destruct (render_dialog s); [|discriminate].
    destruct (render_grid (profiles s)); [|discriminate]. congruence. }
  assert (∀ h, h ∈ concat (map card_handlers (cards_of g)) →
               ∃ p id, p ∈ l ∧ get_prop "id" p = Resolved id
                       ∧ (h = OnSetActive id ∨ (h = OnDelete id ∧ is_active p = false))) as C.
  { intros h. generalize (cards_of g) F. clear. intros cs F.
    induction F as [|p c l cs Hc _ IH]; simpl; intros Hin.
    - inversion Hin.
    - apply elem_of_app in Hin as [Hin|Hin].
      + destruct (card_handlers_inv p c h Hc Hin) as (id & Hi & Hh).
        exists p, id. split; [left|]. split; assumption.
      + destruct (IH Hin) as (q & id & Hq & Hi & Hh).
        exists q, id. split; [right; exact Hq|]. split; assumption. }
  split; intros arg Hin; unfold handlers in Hin; apply elem_of_app in Hin as [Hin|Hin].
  - destruct (dialog_handlers_inv s d _ D Hin) as [?|[?|?]]; discriminate.
  - destruct (C _ Hin) as (p & id & Hp & Hi & [Hh|[Hh Ha]]); [discriminate|].
    injection Hh as ->. eauto.
  - destruct (dialog_handlers_inv s d _ D Hin) as [?|[?|?]]; discriminate.
  - destruct (C _ Hin) as (p & id & Hp & Hi & [Hh|[Hh Ha]]); [|discriminate].
    injection Hh as ->. eauto.
Qed.

Lemma page_actions_from_list_witness :
  ∃ p, p ∈ [profileA; profileB] ∧ get_prop "id" p = Resolved (JNum 2) ∧ is_active p = false.
Proof.
  refine (proj1 (page_actions_from_list readyState _ _ [profileA; profileB]
                   (eq_refl : Profiles readyState = Resolved (Page _ _)) eq_refl)
            (JNum 2) _).
  apply list_elem_of_In. vm_compute. tauto.
Defined.

(** ** The mount effect *)

(** Without a session the visitor is sent to the login route and nothing
    else happens: no request is issued and no cell is written, so [loading]
    stays as it was. *)
Theorem initializeUser_no_session o n w session :
  truthy session = false →
  run o (initializeUser (Resolved session)) n w = (w, [Did (RouterPush "/login")]).
Proof.
  intros T. unfold initializeUser. rewrite T. destruct w. reflexivity.
Qed.

Lemma initializeUser_no_session_witness :
  run (replying (Resolved listReply) (Resolved true)) (initializeUser (Resolved JNull)) 0
      (mkWorld initialState ∅)
  = (mkWorld initialState ∅, [Did (RouterPush "/login")]).
Proof.
  apply (initializeUser_no_session (replying (Resolved listReply) (Resolved true)) 0
           (mkWorld initialState ∅) JNull).
  reflexivity.
Defined.

(** With a session the visitor is not redirected by the lookup itself: the
    session is stored in [user] first, then the list is requested once, and
    [loading] is off at the end whatever the network answers. *)
Theorem initializeUser_session o n w session :
  truthy session = true →
  user (state (run o (initializeUser (Resolved session)) n w).1) = session
  ∧ head (run o (initializeUser (Resolved session)) n w).2 = Some (Did (SetState (SetUser session)))
  ∧ fetches (run o (initializeUser (Resolved session)) n w).2
    = [listRequest (localStorage w !! "token")]
  ∧ loading (state (run o (initializeUser (Resolved session)) n w).1) = false.
Proof.
  intros T. unfold initializeUser, fetchProfiles. rewrite T.
  run_paths; repeat split.
Qed.

Lemma initializeUser_session_witness :
  user (state (run (replying offline (Resolved true)) (initializeUser (Resolved sessionOf7)) 0
                 (mkWorld initialState ∅)).1) = sessionOf7
  ∧ loading (state (run (replying offline (Resolved true)) (initializeUser (Resolved sessionOf7)) 0
                      (mkWorld initialState ∅)).1) = false.
Proof.
  destruct (initializeUser_session (replying offline (Resolved true)) 0
              (mkWorld initialState ∅) sessionOf7) as (H1 & _ & _ & H4); [reflexivity|].
  split; [exact H1 | exact H4].
Defined.

(** ** Handlers followed by a rendering pass *)



(** After a successful creation the page shows exactly what the new GET
    returned: when that reply is an array of profile objects, the cards are
    its entries in order, the dialog is closed and the staged form is empty
    again. *)
Theorem create_then_list_shown o c w resp resp' l :
  verifyIPTVCredentials o 0 (assoc "iptvUrl" (formData c)) (assoc "iptvUsername" (formData c))
                        (assoc "iptvPassword" (formData c)) = Resolved true →
  fetch o 1 (createRequest (formData c)) = Resolved resp →
  ok resp = true →
  fetch o 2 (listRequest (localStorage w !! "token")) = Resolved resp' →
  status resp' ≠ 401 →
  payload resp' = Some (JArr l) →
  Forall (fun p => is_object p = true) l →
  profiles (state (run o (handleCreateProfile c) 0 w).1) = JArr l
  ∧ formData (state (run o (handleCreateProfile c) 0 w).1) = emptyForm
  ∧ ∃ d cs,
      Profiles (state (run o (handleCreateProfile c) 0 w).1) = Resolved (Page d (Cards cs))
      ∧ dialog_open d = false
      ∧ length cs = length l
      ∧ map key cs = map profile_id l.
Proof.
  intros V F K F' S P O. unfold handleCreateProfile, fetchProfiles, json_of.
  cbn [run emit]. rewrite V. cbn [negb run emit]. rewrite F, K.
  cbn [run emit perform state localStorage]. rewrite F'.
  apply Z.eqb_neq in S. rewrite S, P.
  cbn [get_prop run emit perform state localStorage fst snd].
  split; [reflexivity|]. split; [reflexivity|].
  apply Profiles_objects; [reflexivity | reflexivity | exact O].
Qed.

Lemma create_then_list_shown_witness :
  profiles (state (run (scripted [offline; Resolved created; Resolved listReply] (Resolved true))
                     (handleCreateProfile dialogState) 0 dialogWorld).1)
    = JArr [profileA; profileB]
  ∧ formData (state (run (scripted [offline; Resolved created; Resolved listReply] (Resolved true))
                       (handleCreateProfile dialogState) 0 dialogWorld).1) = emptyForm.
Proof.
  destruct (create_then_list_shown
              (scripted [offline; Resolved created; Resolved listReply] (Resolved true))
              dialogState dialogWorld created listReply [profileA; profileB])
    as (H1 & H2 & _); try reflexivity.
  - discriminate.
  - repeat constructor.
  - split; [exact H1 | exact H2].
Defined.

(** After a successful deletion the page shows exactly what the new GET
    returned, when that is an array of profile objects; a message left in
    [error] by an earlier failure is still there. *)
Theorem delete_then_list_shown o profileId w resp resp' l :
  fetch o 0 (deleteRequest profileId) = Resolved resp →
  ok resp = true →
  fetch o 1 (listRequest (localStorage w !! "token")) = Resolved resp' →
  status resp' ≠ 401 →
  payload resp' = Some (JArr l) →
  Forall (fun p => is_object p = true) l →
  profiles (state (run o (deleteProfile profileId) 0 w).1) = JArr l
  ∧ error (state (run o (deleteProfile profileId) 0 w).1) = error (state w)
  ∧ ∃ d cs,
      Profiles (state (run o (deleteProfile profileId) 0 w).1) = Resolved (Page d (Cards cs))
      ∧ length cs = length l
      ∧ map key cs = map profile_id l.
Proof.
  intros F K F' S P O. unfold deleteProfile, fetchProfiles, json_of.
  cbn [run emit]. rewrite F, K. cbn [negb run emit perform state localStorage]. rewrite F'.
  apply Z.eqb_neq in S. rewrite S, P.
  cbn [get_prop run emit perform state localStorage fst snd].
  split; [reflexivity|]. split; [reflexivity|].
  match goal with |- context [Profiles ?s] =>
    destruct (Profiles_objects s l eq_refl eq_refl O) as (d & cs & R & _ & Hl & Hk) end.
  exists d, cs. repeat split; assumption.
Qed.

Lemma delete_then_list_shown_witness :
  profiles (state (run (scripted [Resolved deleted; Resolved (mkResponse 200 (Some (JArr [profileA])))]
                          (Resolved true))
                     (deleteProfile 2) 0 dialogWorld).1) = JArr [profileA]
  ∧ error (state (run (scripted [Resolved deleted; Resolved (mkResponse 200 (Some (JArr [profileA])))]
                         (Resolved true))
                    (deleteProfile 2) 0 dialogWorld).1) = JStr "Failed to delete profile".
Proof.
  destruct (delete_then_list_shown
              (scripted [Resolved deleted; Resolved (mkResponse 200 (Some (JArr [profileA])))]
                 (Resolved true))
              2 dialogWorld deleted (mkResponse 200 (Some (JArr [profileA]))) [profileA])
    as (H1 & H2 & _); try reflexivity.
  - discriminate.
  - repeat constructor.
  - split; [exact H1 | exact H2].
Defined.
